(** * SmartThings MCP server: a shallow embedding of [smartthings_mcp.py]

    The development follows the source file top to bottom:
    - JSON values and the handful of Python operations the code applies to
      them (dict [.get], subscripting, iteration, truthiness, [len]);
    - Python exceptions, and a small state-and-error monad for the code that
      talks to the SmartThings API (every HTTP request is recorded, together
      with every line handed to the logger);
    - [SmartThingsClient] (the Device API client);
    - [handle_list_tools] / [handle_call_tool] (the tool dispatcher);
    - [SmartThingsMCPServer.run] (startup).

    External collaborators are parameters of the model: the HTTP endpoint
    (an oracle from the request history and the request to a response),
    [urllib.parse.urljoin], [json.dumps] and [repr]. The schema boundary and
    the protocol loop of the [mcp] framework, which stand in front of
    [handle_call_tool], are modelled from the spec. *)

From Stdlib Require Import String Ascii List ZArith Bool Lia SpecFloat DecimalString.
Import ListNotations.
Open Scope string_scope.

(** ** JSON values

    What [response.json()] and the protocol layer hand to the code: [None],
    [bool], [int], [float], [str], [list] and [dict] with string keys. A dict
    keeps its insertion order, so it is an association list; [.get] and
    subscripting read the first binding of a key. *)

#[warnings="-register-all"]
Inductive json : Type :=
| JNull
| JBool (b : bool)
| JInt (n : Z)
| JFloat (f : spec_float)
| JStr (s : string)
| JList (items : list json)
| JDict (fields : list (string * json)).

Definition dict := list (string * json).

Fixpoint dict_lookup (d : dict) (key : string) : option json :=
  match d with
  | [] => None
  | (k, v) :: rest => if String.eqb k key then Some v else dict_lookup rest key
  end.

(** [type(v).__name__], as it appears in Python's error messages. *)
Definition py_type_name (v : json) : string :=
  match v with
  | JNull => "NoneType"
  | JBool _ => "bool"
  | JInt _ => "int"
  | JFloat _ => "float"
  | JStr _ => "str"
  | JList _ => "list"
  | JDict _ => "dict"
  end.

(** [bool(v)]: [None], [False], zero, and the empty string, list and dict are
    falsy; everything else (NaN included) is truthy. *)
Definition py_truthy (v : json) : bool :=
  match v with
  | JNull => false
  | JBool b => b
  | JInt n => negb (Z.eqb n 0)
  | JFloat (S754_zero _) => false
  | JFloat _ => true
  | JStr s => negb (String.eqb s "")
  | JList l => match l with [] => false | _ => true end
  | JDict d => match d with [] => false | _ => true end
  end.

(** ** Exceptions

    Every exception of the model derives from [Exception]; [exn_str] is what
    [str(e)] gives. *)

Inductive exn_class : Type :=
| ClientError        (* aiohttp.ClientError and its subclasses *)
| KeyError
| IndexError
| TypeError
| AttributeError
| OtherException.    (* any other subclass of Exception *)

Record exn : Type := mkExn { exn_kind : exn_class; exn_str : string }.

Definition is_ClientError (e : exn) : bool :=
  match exn_kind e with ClientError => true | _ => false end.

(** Pure computations that may raise. *)
Definition E (A : Type) : Type := (exn + A)%type.

Definition ebind {A B} (m : E A) (k : A -> E B) : E B :=
  match m with
  | inl e => inl e
  | inr a => k a
  end.

Fixpoint emap {A B} (f : A -> E B) (l : list A) : E (list B) :=
  match l with
  | [] => inr []
  | x :: rest =>
      ebind (f x) (fun y => ebind (emap f rest) (fun ys => inr (y :: ys)))
  end.

(** Strings are UTF-8 byte strings; a Python character is a lead byte with
    the continuation bytes (0x80..0xBF) that follow it. *)
Definition is_continuation (c : ascii) : bool :=
  let n := nat_of_ascii c in (128 <=? n)%nat && (n <=? 191)%nat.

Fixpoint utf8_chars_aux (cur : string) (s : string) : list string :=
  match s with
  | EmptyString => [cur]
  | String c rest =>
      if is_continuation c
      then utf8_chars_aux (cur ++ String c EmptyString) rest
      else cur :: utf8_chars_aux (String c EmptyString) rest
  end.

Definition utf8_chars (s : string) : list string :=
  match s with
  | EmptyString => []
  | String c rest => utf8_chars_aux (String c EmptyString) rest
  end.

Definition attribute_error (v : json) (attr : string) : exn :=
  mkExn AttributeError
        ("'" ++ py_type_name v ++ "' object has no attribute '" ++ attr ++ "'").

(** [o.get(key, default)]: only a dict has the method. *)
Definition py_get (o : json) (key : string) (default : json) : E json :=
  match o with
  | JDict d =>
      match dict_lookup d key with
      | Some v => inr v
      | None => inr default
      end
  | _ => inl (attribute_error o "get")
  end.

(** [d[key]] on a dict: [KeyError(key)], whose [str] is [repr(key)]. The keys
    the code subscripts with are identifiers, so [repr] only adds quotes. *)
Definition py_getitem (d : dict) (key : string) : E json :=
  match dict_lookup d key with
  | Some v => inr v
  | None => inl (mkExn KeyError ("'" ++ key ++ "'"))
  end.

(** [o[0]]. *)
Definition py_index0 (o : json) : E json :=
  match o with
  | JList (x :: _) => inr x
  | JList [] => inl (mkExn IndexError "list index out of range")
  | JStr s =>
      match utf8_chars s with
      | c :: _ => inr (JStr c)
      | [] => inl (mkExn IndexError "string index out of range")
      end
  | JDict _ => inl (mkExn KeyError "0")
  | _ => inl (mkExn TypeError
                    ("'" ++ py_type_name o ++ "' object is not subscriptable"))
  end.

(** [for x in o]: the elements of a list, the keys of a dict, the characters
    of a string. *)
Definition py_iter (o : json) : E (list json) :=
  match o with
  | JList l => inr l
  | JDict d => inr (map (fun kv => JStr (fst kv)) d)
  | JStr s => inr (map JStr (utf8_chars s))
  | _ => inl (mkExn TypeError
                    ("'" ++ py_type_name o ++ "' object is not iterable"))
  end.

(** [len(o)]. *)
Definition py_len (o : json) : E nat :=
  match o with
  | JList l => inr (length l)
  | JDict d => inr (length d)
  | JStr s => inr (length (utf8_chars s))
  | _ => inl (mkExn TypeError
                    ("object of type '" ++ py_type_name o ++ "' has no len()"))
  end.

(** [s == v] for a string [s]. *)
Definition py_eq_str (s : string) (v : json) : bool :=
  match v with
  | JStr t => String.eqb s t
  | _ => false
  end.

(** [s in names]. *)
Definition py_in (s : string) (names : list json) : bool :=
  existsb (py_eq_str s) names.

Definition decimal (n : Z) : string :=
  NilEmpty.string_of_int (Z.to_int n).

(** ** The world outside: HTTP requests and the logger *)

Record Request : Type := mkRequest {
  req_method : string;
  req_url : string;
  req_headers : list (string * string);
  req_json : option json
}.

Inductive log_level : Type := INFO | ERROR.

(** Everything the process has done so far, oldest first. *)
Record World : Type := mkWorld {
  requests : list Request;
  log_lines : list (log_level * string)
}.

Definition initial_world : World := mkWorld [] [].

(** The world after one more request, after some more log lines. *)
Definition sent (w : World) (r : Request) : World :=
  mkWorld (requests w ++ [r]) (log_lines w).

Definition logged (w : World) (lines : list (log_level * string)) : World :=
  mkWorld (requests w) (log_lines w ++ lines).

(** The line [_make_request] logs for [e]: only a [ClientError] is caught
    there. *)
Definition request_failed_line (e : exn) : list (log_level * string) :=
  if is_ClientError e
  then [(ERROR, "API request failed: " ++ exn_str e)]
  else [].

(** Effectful computations: they read and extend the world and may raise. *)
Definition M (A : Type) : Type := World -> E A * World.

Definition ret {A} (a : A) : M A := fun w => (inr a, w).

Definition raise {A} (e : exn) : M A := fun w => (inl e, w).

Definition bind {A B} (m : M A) (k : A -> M B) : M B :=
  fun w =>
    match m w with
    | (inl e, w') => (inl e, w')
    | (inr a, w') => k a w'
    end.

(** [try: m  except Exception as e: h e]. *)
Definition try_except {A} (m : M A) (h : exn -> M A) : M A :=
  fun w =>
    match m w with
    | (inl e, w') => h e w'
    | (inr a, w') => (inr a, w')
    end.

Definition lift {A} (m : E A) : M A := fun w => (m, w).

Definition logger (lvl : log_level) (line : string) : M unit :=
  fun w => (inr tt, mkWorld (requests w) (log_lines w ++ [(lvl, line)])).

Declare Scope py_scope.
Delimit Scope py_scope with py.
Notation "x <- m ;; k" := (bind m (fun x => k))
  (at level 61, m at next level, right associativity) : py_scope.
Notation "m ;; k" := (bind m (fun _ => k))
  (at level 61, right associativity) : py_scope.
Open Scope py_scope.

(** ** class SmartThingsClient *)

Record SmartThingsClient : Type := mkClient {
  access_token : string;
  base_url : string;
  headers : list (string * string)
}.

(** [SmartThingsClient.__init__]. *)
Definition SmartThingsClient_init (token : string) : SmartThingsClient :=
  mkClient token "https://api.smartthings.com/v1"
           [("Authorization", "Bearer " ++ token);
            ("Content-Type", "application/json")].

(** The reference list of [get_tv_devices] (lines 103 to 105). *)
Definition tv_capabilities : list string :=
  ["switch"; "audioVolume"; "mediaInputSource"; "tvChannel"].

(** The body of the loop of [get_tv_devices] up to the test (lines 100 and
    101): the capability identifiers of the first component of [device]. *)
Definition capability_names (device : json) : E (list json) :=
  ebind (py_get device "components" (JList [JDict []])) (fun components =>
  ebind (py_index0 components) (fun first =>
  ebind (py_get first "capabilities" (JList [])) (fun capabilities =>
  ebind (py_iter capabilities) (fun caps =>
  emap (fun cap => py_get cap "id" (JStr "")) caps)))).

(** The test of the loop: [any(cap in capability_names for cap in [...])]. *)
Definition is_tv_device (device : json) : E bool :=
  ebind (capability_names device) (fun names =>
  inr (existsb (fun cap => py_in cap names) tv_capabilities)).

(** The loop of [get_tv_devices] over an already iterated device list: the
    first device that raises ends the loop. *)
Fixpoint tv_devices_loop (devices : list json) (tv_devices : list json)
  : E (list json) :=
  match devices with
  | [] => inr tv_devices
  | device :: rest =>
      ebind (is_tv_device device) (fun tv =>
      tv_devices_loop rest (if tv then tv_devices ++ [device] else tv_devices))
  end.

(** Lines 96 to 108 of [get_tv_devices]: the classification applied to the
    value [get_devices] returned. *)
Definition classify_tv_devices (devices : json) : E json :=
  ebind (py_iter devices) (fun ds =>
  ebind (tv_devices_loop ds []) (fun tv_devices =>
  inr (JList tv_devices))).

Section Client.

(** The SmartThings endpoint: what a request yields given the requests made
    before it, a decoded JSON body or the exception raised by the session,
    by [raise_for_status] or by [response.json()]. *)
Variable http : list Request -> Request -> E json.

(** [urllib.parse.urljoin]. *)
Variable urljoin : string -> string -> string.

(** [repr] of a value. *)
Variable py_repr : json -> string.

(** [str(v)], which is what an f-string field prints: a string prints as
    itself, a list, a dict or a float as its [repr]. *)
Definition py_str (v : json) : string :=
  match v with
  | JStr s => s
  | JNull => "None"
  | JBool true => "True"
  | JBool false => "False"
  | JInt n => decimal n
  | _ => py_repr v
  end.

(** The request [_make_request] builds from its arguments. *)
Definition request_of (self : SmartThingsClient) (method endpoint : string)
           (data : option json) : Request :=
  mkRequest method (urljoin (base_url self) endpoint) (headers self) data.

(** [_make_request] (lines 44 to 57): the request is made, and a
    [ClientError] is logged before it is raised again. *)
Definition _make_request (self : SmartThingsClient) (method endpoint : string)
           (data : option json) : M json :=
  let url := urljoin (base_url self) endpoint in
  let request := mkRequest method url (headers self) data in
  fun w =>
    let w' := mkWorld (requests w ++ [request]) (log_lines w) in
    match http (requests w) request with
    | inr body => (inr body, w')
    | inl e =>
        if is_ClientError e
        then (logger ERROR ("API request failed: " ++ exn_str e) ;; raise e) w'
        else (inl e, w')
    end.

(** [get_devices] (lines 59 to 66). *)
Definition get_devices (self : SmartThingsClient) : M json :=
  try_except
    (response <- _make_request self "GET" "/devices" None ;;
     lift (py_get response "items" (JList [])))
    (fun e =>
       logger ERROR ("Failed to get devices: " ++ exn_str e) ;;
       ret (JList [])).

(** [get_device] (lines 68 to 74); [JNull] is Python's [None]. *)
Definition get_device (self : SmartThingsClient) (device_id : json) : M json :=
  try_except
    (_make_request self "GET" ("/devices/" ++ py_str device_id) None)
    (fun e =>
       logger ERROR ("Failed to get device " ++ py_str device_id ++ ": "
                       ++ exn_str e) ;;
       ret JNull).

(** [get_device_status] (lines 76 to 82). *)
Definition get_device_status (self : SmartThingsClient) (device_id : json)
  : M json :=
  try_except
    (_make_request self "GET" ("/devices/" ++ py_str device_id ++ "/status")
                   None)
    (fun e =>
       logger ERROR ("Failed to get device status for " ++ py_str device_id
                       ++ ": " ++ exn_str e) ;;
       ret JNull).

(** [send_device_command] (lines 84 to 91). *)
Definition send_device_command (self : SmartThingsClient) (device_id : json)
           (commands : json) : M json :=
  try_except
    (let data := JDict [("commands", commands)] in
     _make_request self "POST"
                   ("/devices/" ++ py_str device_id ++ "/commands")
                   (Some data))
    (fun e =>
       logger ERROR ("Failed to send command to device " ++ py_str device_id
                       ++ ": " ++ exn_str e) ;;
       raise e).

(** The request [send_device_command] posts. *)
Definition command_request (self : SmartThingsClient) (device_id commands : json)
  : Request :=
  request_of self "POST" ("/devices/" ++ py_str device_id ++ "/commands")
             (Some (JDict [("commands", commands)])).

(** [get_tv_devices] (lines 93 to 108). *)
Definition get_tv_devices (self : SmartThingsClient) : M json :=
  devices <- get_devices self ;;
  lift (classify_tv_devices devices).

End Client.

(** ** class SmartThingsMCPServer *)

(** [mcp.types.Tool] and [mcp.types.TextContent], with the fields the code
    fills in. *)
Record Tool : Type := mkTool {
  name : string;
  description : string;
  inputSchema : json
}.

Record TextContent : Type := mkTextContent {
  type : string;
  text : string
}.

Record SmartThingsMCPServer : Type := mkServer {
  client : option SmartThingsClient
}.

(** [SmartThingsMCPServer.__init__]: no client yet. *)
Definition SmartThingsMCPServer_init : SmartThingsMCPServer := mkServer None.

Definition object_schema (properties : dict) (required : list string) : json :=
  JDict [("type", JStr "object");
         ("properties", JDict properties);
         ("required", JList (map JStr required))].

Definition string_property (descr : string) : json :=
  JDict [("type", JStr "string"); ("description", JStr descr)].

(** [handle_list_tools] (lines 121 to 264): the static catalog. *)
Definition handle_list_tools : list Tool :=
  [ mkTool "list_devices" "List all SmartThings devices"
      (object_schema [] []);
    mkTool "list_tv_devices" "List all TV devices in SmartThings"
      (object_schema [] []);
    mkTool "get_device_info" "Get detailed information about a specific device"
      (object_schema [("device_id", string_property "The device ID")]
                     ["device_id"]);
    mkTool "get_device_status" "Get the current status of a device"
      (object_schema [("device_id", string_property "The device ID")]
                     ["device_id"]);
    mkTool "turn_tv_on_off" "Turn Samsung TV on or off"
      (object_schema
         [("device_id", string_property "The TV device ID");
          ("action", JDict [("type", JStr "string");
                            ("enum", JList [JStr "on"; JStr "off"]);
                            ("description", JStr "Turn the TV on or off")])]
         ["device_id"; "action"]);
    mkTool "change_tv_volume" "Change Samsung TV volume"
      (object_schema
         [("device_id", string_property "The TV device ID");
          ("volume", JDict [("type", JStr "integer");
                            ("minimum", JInt 0);
                            ("maximum", JInt 100);
                            ("description", JStr "Volume level (0-100)")])]
         ["device_id"; "volume"]);
    mkTool "mute_tv" "Mute or unmute Samsung TV"
      (object_schema
         [("device_id", string_property "The TV device ID");
          ("mute", JDict [("type", JStr "boolean");
                          ("description", JStr "True to mute, False to unmute")])]
         ["device_id"; "mute"]);
    mkTool "change_tv_channel" "Change Samsung TV channel"
      (object_schema
         [("device_id", string_property "The TV device ID");
          ("channel", string_property "Channel number or name")]
         ["device_id"; "channel"]);
    mkTool "change_tv_input" "Change Samsung TV input source"
      (object_schema
         [("device_id", string_property "The TV device ID");
          ("input_source",
           string_property "Input source (e.g., 'HDMI1', 'HDMI2', 'USB', etc.)")]
         ["device_id"; "input_source"]) ].

Definition find_tool (tool_name : string) : option Tool :=
  find (fun t => String.eqb (name t) tool_name) handle_list_tools.

(** The strings of a schema's ["required"] list. *)
Definition required_keys (schema : json) : list string :=
  match py_get schema "required" (JList []) with
  | inr (JList keys) =>
      flat_map (fun k => match k with JStr s => [s] | _ => [] end) keys
  | _ => []
  end.

(** What the catalog declares under [keyword] for a property of a tool's
    input schema. *)
Definition field (o : json) (key : string) : option json :=
  match o with
  | JDict d => dict_lookup d key
  | _ => None
  end.

(** ** The schema boundary *)

(** Modelled from the spec: the type names of the declared JSON schemas, as
    the schema boundary of the protocol framework reads them. The framework
    (the [mcp] package behind [@self.server.call_tool()]) is not under src/;
    spec 4.2 lists the argument types of the catalog as string, integer and
    boolean, carried by an object. *)
Definition is_of_type (type_name : string) (value : json) : bool :=
  if String.eqb type_name "string" then
    match value with JStr _ => true | _ => false end
  else if String.eqb type_name "integer" then
    match value with JInt _ => true | _ => false end
  else if String.eqb type_name "boolean" then
    match value with JBool _ => true | _ => false end
  else if String.eqb type_name "object" then
    match value with JDict _ => true | _ => false end
  else false.

(** Modelled from the spec: what the schema boundary of the protocol
    framework (not under src/) requires of one argument, read off the schema
    the catalog declares for it: its ["type"], membership in its ["enum"]
    (spec 4.2: action in {on, off}), and its ["minimum"] and ["maximum"]
    (spec 4.2 and 8.2: volume in [0,100]). *)
Definition conforms_property (schema value : json) : bool :=
  match field schema "type" with
  | Some (JStr type_name) => is_of_type type_name value
  | _ => true
  end
  && match field schema "enum" with
     | Some (JList allowed) =>
         existsb (fun item => match item with
                              | JStr s => py_eq_str s value
                              | _ => false
                              end) allowed
     | _ => true
     end
  && match field schema "minimum", value with
     | Some (JInt lowest), JInt n => (lowest <=? n)%Z
     | _, _ => true
     end
  && match field schema "maximum", value with
     | Some (JInt highest), JInt n => (n <=? highest)%Z
     | _, _ => true
     end.

(** Modelled from the spec: what the schema boundary of the protocol
    framework (not under src/) requires of an argument mapping, read off a
    tool's declared input schema: every key of ["required"] is present
    (spec 4.2, column "Required args"), and every argument that has a
    declared property conforms to it. *)
Definition conforms (schema : json) (arguments : dict) : bool :=
  forallb (fun key => match dict_lookup arguments key with
                      | Some _ => true
                      | None => false
                      end)
          (required_keys schema)
  && match field schema "properties" with
     | Some (JDict properties) =>
         forallb (fun property =>
                    match dict_lookup arguments (fst property) with
                    | Some value => conforms_property (snd property) value
                    | None => true
                    end)
                 properties
     | _ => true
     end.

(** Modelled from the spec: the answer of the protocol framework (not under
    src/) to a call it rejects at the schema boundary. The spec fixes no
    text for it. *)
Definition schema_rejection : exn :=
  mkExn OtherException "Input validation error".

Definition text_content (s : string) : TextContent := mkTextContent "text" s.

Definition uninitialized_message : string :=
  "SmartThings client not initialized. Please check your access token.".

(** A command of a batch is a plain dict. *)
Definition command (capability verb : json) (arguments : option json) : json :=
  JDict ([("component", JStr "main");
          ("capability", capability);
          ("command", verb)]
           ++ match arguments with
              | Some args => [("arguments", args)]
              | None => []
              end).

Section Server.

Variable http : list Request -> Request -> E json.
Variable urljoin : string -> string -> string.
Variable py_repr : json -> string.

(** [json.dumps(v, indent=2)]. *)
Variable json_dumps : json -> string.

(** The [try] block of [handle_call_tool] (lines 278 to 408), entered with
    the client present. *)
Definition call_tool_body (self_client : SmartThingsClient)
           (name : string) (arguments : dict) : M (list TextContent) :=
  if String.eqb name "list_devices" then
    devices <- get_devices http urljoin self_client ;;
    ret [text_content (json_dumps devices)]
  else if String.eqb name "list_tv_devices" then
    tv_devices <- get_tv_devices http urljoin self_client ;;
    ret [text_content (json_dumps tv_devices)]
  else if String.eqb name "get_device_info" then
    device_id <- lift (py_getitem arguments "device_id") ;;
    device_info <- get_device http urljoin py_repr self_client device_id ;;
    if py_truthy device_info
    then ret [text_content (json_dumps device_info)]
    else ret [text_content ("Device " ++ py_str py_repr device_id ++ " not found")]
  else if String.eqb name "get_device_status" then
    device_id <- lift (py_getitem arguments "device_id") ;;
    status <- get_device_status http urljoin py_repr self_client device_id ;;
    if py_truthy status
    then ret [text_content (json_dumps status)]
    else ret [text_content
                ("Could not get status for device " ++ py_str py_repr device_id)]
  else if String.eqb name "turn_tv_on_off" then
    device_id <- lift (py_getitem arguments "device_id") ;;
    action <- lift (py_getitem arguments "action") ;;
    let commands := JList [command (JStr "switch") action None] in
    result <- send_device_command http urljoin py_repr self_client device_id commands ;;
    ret [text_content ("TV turned " ++ py_str py_repr action ++ ". Result: "
                         ++ json_dumps result)]
  else if String.eqb name "change_tv_volume" then
    device_id <- lift (py_getitem arguments "device_id") ;;
    volume <- lift (py_getitem arguments "volume") ;;
    let commands :=
      JList [command (JStr "audioVolume") (JStr "setVolume")
                     (Some (JList [volume]))] in
    result <- send_device_command http urljoin py_repr self_client device_id commands ;;
    ret [text_content ("Volume set to " ++ py_str py_repr volume ++ ". Result: "
                         ++ json_dumps result)]
  else if String.eqb name "mute_tv" then
    device_id <- lift (py_getitem arguments "device_id") ;;
    mute <- lift (py_getitem arguments "mute") ;;
    let commands :=
      JList [command (JStr "audioVolume")
                     (JStr (if py_truthy mute then "mute" else "unmute"))
                     None] in
    result <- send_device_command http urljoin py_repr self_client device_id commands ;;
    ret [text_content ("TV " ++ (if py_truthy mute then "muted" else "unmuted")
                         ++ ". Result: " ++ json_dumps result)]
  else if String.eqb name "change_tv_channel" then
    device_id <- lift (py_getitem arguments "device_id") ;;
    channel <- lift (py_getitem arguments "channel") ;;
    let commands :=
      JList [command (JStr "tvChannel") (JStr "setTvChannel")
                     (Some (JList [channel]))] in
    result <- send_device_command http urljoin py_repr self_client device_id commands ;;
    ret [text_content ("Channel changed to " ++ py_str py_repr channel ++ ". Result: "
                         ++ json_dumps result)]
  else if String.eqb name "change_tv_input" then
    device_id <- lift (py_getitem arguments "device_id") ;;
    input_source <- lift (py_getitem arguments "input_source") ;;
    let commands :=
      JList [command (JStr "mediaInputSource") (JStr "setInputSource")
                     (Some (JList [input_source]))] in
    result <- send_device_command http urljoin py_repr self_client device_id commands ;;
    ret [text_content ("Input changed to " ++ py_str py_repr input_source ++ ". Result: "
                         ++ json_dumps result)]
  else
    ret [text_content ("Unknown tool: " ++ name)].

(** [handle_call_tool] (lines 266 to 415): the guard on the client, then the
    [try] block under its [except Exception]. *)
Definition handle_call_tool (self : SmartThingsMCPServer)
           (name : string) (arguments : dict) : M (list TextContent) :=
  match client self with
  | None => ret [text_content uninitialized_message]
  | Some self_client =>
      try_except
        (call_tool_body self_client name arguments)
        (fun e =>
           logger ERROR ("Error in tool " ++ name ++ ": " ++ exn_str e) ;;
           ret [text_content ("Error executing " ++ name ++ ": " ++ exn_str e)])
  end.

(** What [run] hands back: the process exit of [sys.exit], or the server as
    it enters the protocol loop. *)
Inductive run_result : Type :=
| SysExit (code : Z)
| Serving (self : SmartThingsMCPServer).

(** [run] (lines 417 to 434), up to the protocol loop; [access_token] is
    [os.getenv("SMARTTHINGS_ACCESS_TOKEN")]. The client is stored before the
    probe; the probe exits on any exception of [get_devices] or of [len]. *)
Definition run (self : SmartThingsMCPServer) (access_token : option string)
  : World -> run_result * World :=
  fun w =>
    match access_token with
    | None | Some "" =>
        (SysExit 1,
         snd (logger ERROR
                "SMARTTHINGS_ACCESS_TOKEN environment variable not set" w))
    | Some token =>
        let self := mkServer (Some (SmartThingsClient_init token)) in
        let probe :=
          try_except
            (devices <- get_devices http urljoin (SmartThingsClient_init token) ;;
             n <- lift (py_len devices) ;;
             logger INFO ("Connected to SmartThings. Found "
                            ++ decimal (Z.of_nat n) ++ " devices.") ;;
             ret true)
            (fun e =>
               logger ERROR ("Failed to connect to SmartThings: " ++ exn_str e) ;;
               ret false) in
        match probe w with
        | (inr true, w') => (Serving self, w')
        | (_, w') => (SysExit 1, w')
        end
    end.

(** Modelled from the spec: the schema boundary in front of
    [handle_call_tool], which belongs to the protocol framework (the [mcp]
    package behind [@self.server.call_tool()], not under src/). Spec 4.2 and
    8.2: the declared JSON schema constrains the arguments at the boundary,
    and a call that violates the schema of its tool is rejected there,
    before the handler and so before any client operation. [None] is that
    rejection. A name outside the catalog has no schema and goes on to the
    handler, which answers it (spec 4.2, step 2). *)
Definition call_tool (self : SmartThingsMCPServer)
           (name : string) (arguments : dict)
  : World -> option (E (list TextContent)) * World :=
  fun w =>
    let accepted :=
      match find_tool name with
      | Some tool => conforms (inputSchema tool) arguments
      | None => true
      end in
    if accepted
    then let (answer, w') := handle_call_tool self name arguments w in
         (Some answer, w')
    else (None, w).

(** Modelled from the spec: the protocol loop of the framework (not under
    src/), as far as tool calls go. Spec 5: one call is processed to
    completion before the next is accepted; each call passes the schema
    boundary [call_tool]. [inl] is an answer of the framework itself: a
    call rejected at the boundary, or a handler that raised. *)
Fixpoint serve (self : SmartThingsMCPServer) (calls : list (string * dict))
  : World -> list (E (list TextContent)) * World :=
  fun w =>
    match calls with
    | [] => ([], w)
    | (name, arguments) :: rest =>
        let (outcome, w') := call_tool self name arguments w in
        let answer := match outcome with
                      | Some answer => answer
                      | None => inl schema_rejection
                      end in
        let (answers, w'') := serve self rest w' in
        (answer :: answers, w'')
    end.

Inductive process_outcome : Type :=
| Exited (code : Z)
| Served (answers : list (E (list TextContent))).

(** [main]: a fresh server, [run], then the calls that arrive. *)
Definition main (access_token : option string) (calls : list (string * dict))
  : World -> process_outcome * World :=
  fun w =>
    match run SmartThingsMCPServer_init access_token w with
    | (SysExit code, w') => (Exited code, w')
    | (Serving self, w') =>
        let (answers, w'') := serve self calls w' in (Served answers, w'')
    end.

End Server.

(** How a command branch ends: the result of [send_device_command] is
    rendered into one text item, an exception passes through. *)
Definition after_send (render : json -> string) (sent_result : E json * World)
  : E (list TextContent) * World :=
  match sent_result with
  | (inr result, w') => (inr [text_content (render result)], w')
  | (inl e, w') => (inl e, w')
  end.

(** The handler after a command branch: the result of the one
    [send_device_command] is rendered, an exception becomes the error item. *)
Definition rendered (name : string) (render : json -> string)
           (sent_result : E json * World) : E (list TextContent) * World :=
  match sent_result with
  | (inr result, w') => (inr [text_content (render result)], w')
  | (inl e, w') =>
      (inr [text_content ("Error executing " ++ name ++ ": " ++ exn_str e)],
       logged w' [(ERROR, "Error in tool " ++ name ++ ": " ++ exn_str e)])
  end.

Definition declared (tool_name property keyword : string) : option json :=
  match find_tool tool_name with
  | None => None
  | Some tool =>
      match field (inputSchema tool) "properties" with
      | None => None
      | Some properties =>
          match field properties property with
          | None => None
          | Some schema => field schema keyword
          end
      end
  end.

(** The catalog entry with a given name. *)
Definition tool_named (tool_name : string) : Tool :=
  match find_tool tool_name with
  | Some tool => tool
  | None => mkTool tool_name "" JNull
  end.

(** ** Sample surroundings for the closed examples *)

(** An endpoint that is down: every request fails with a [ClientError]. *)
Definition http_down : list Request -> Request -> E json :=
  fun _ _ => inl (mkExn ClientError "503, message='Service Unavailable'").

(** An endpoint that answers every request with the same body. *)
Definition http_always (body : json) : list Request -> Request -> E json :=
  fun _ _ => inr body.

(** The text of [s] up to its [n+1]-th slash. *)
Fixpoint until_slash (n : nat) (s : string) : string :=
  match s with
  | EmptyString => EmptyString
  | String c rest =>
      if Ascii.eqb c "/"
      then match n with
           | O => EmptyString
           | S n' => String c (until_slash n' rest)
           end
      else String c (until_slash n rest)
  end.

(** [urljoin] where the examples use it: the base has a scheme and an
    authority, the reference is an absolute path without dot segments, so the
    path of the base is replaced by the reference. *)
Definition urljoin_absolute (base reference : string) : string :=
  until_slash 2 base ++ reference.

(** A stand-in for [json.dumps] and for [repr]: the empty list and the empty
    dict print as Python prints them, anything else as a placeholder. No
    example depends on the placeholder. *)
Definition sample_text (v : json) : string :=
  match v with
  | JList [] => "[]"
  | JDict [] => "{}"
  | _ => "<json>"
  end.

Definition sample_client : SmartThingsClient := SmartThingsClient_init "token".

(** Three devices: a TV, a sensor, and a device without components. *)
Definition sample_tv : json :=
  JDict [("deviceId", JStr "tv-1");
         ("components",
          JList [JDict [("id", JStr "main");
                        ("capabilities",
                         JList [JDict [("id", JStr "switch")];
                                JDict [("id", JStr "audioVolume")]])]])].

Definition sample_sensor : json :=
  JDict [("deviceId", JStr "sensor-1");
         ("components",
          JList [JDict [("id", JStr "main");
                        ("capabilities",
                         JList [JDict [("id", JStr "temperatureMeasurement")]])]])].

Definition sample_broken : json :=
  JDict [("deviceId", JStr "broken-1"); ("components", JList [])].

Definition sample_server : SmartThingsMCPServer := mkServer (Some sample_client).

(** ** Vocabulary for the properties below *)

(** The classification test as a boolean: a device on which the test raises
    is not kept either. *)
Definition tv_like (device : json) : bool :=
  match is_tv_device device with
  | inr true => true
  | _ => false
  end.

(** The test of [get_tv_devices] goes through on [device]. *)
Definition readable (device : json) : Prop :=
  exists tv, is_tv_device device = inr tv.

(** [r] is a request of the client [self]: its headers, one of the two
    methods the client uses, and a URL joined onto its base URL. *)
Definition from_client (urljoin : string -> string -> string)
           (self : SmartThingsClient) (r : Request) : Prop :=
  req_headers r = headers self
  /\ (req_method r = "GET" /\ req_json r = None
      \/ req_method r = "POST" /\ req_json r <> None)
  /\ exists endpoint, req_url r = urljoin (base_url self) endpoint.

Definition client_request (urljoin : string -> string -> string)
           (self : SmartThingsClient) (method : string) (r : Request) : Prop :=
  from_client urljoin self r /\ req_method r = method.

(** How a computation extends the request history: not at all, by exactly
    one request satisfying [p], or by at most one. *)
Definition requests_kept {A} (m : M A) : Prop :=
  forall w, requests (snd (m w)) = requests w.

Definition requests_one {A} (p : Request -> Prop) (m : M A) : Prop :=
  forall w, exists r, requests (snd (m w)) = (requests w ++ [r])%list /\ p r.

Definition requests_at_most_one {A} (p : Request -> Prop) (m : M A) : Prop :=
  forall w,
    requests (snd (m w)) = requests w
    \/ exists r, requests (snd (m w)) = (requests w ++ [r])%list /\ p r.

(** The tools whose branch reads from the endpoint. *)
Definition is_query_tool (tool_name : string) : bool :=
  existsb (String.eqb tool_name)
          ["list_devices"; "list_tv_devices";
           "get_device_info"; "get_device_status"].

(** * Properties *)

Section Properties.

Variable http : list Request -> Request -> E json.
Variable urljoin : string -> string -> string.
Variable py_repr : json -> string.
Variable json_dumps : json -> string.

Lemma make_request_run self method endpoint data w :
  _make_request http urljoin self method endpoint data w =
  match http (requests w) (request_of urljoin self method endpoint data) with
  | inr body => (inr body, sent w (request_of urljoin self method endpoint data))
  | inl e => (inl e, logged (sent w (request_of urljoin self method endpoint data))
                            (request_failed_line e))
  end.
Proof.
  unfold _make_request, request_of, request_failed_line, sent, logged.
  destruct (http _ _) as [e|body]; [|reflexivity].
  destruct (is_ClientError e); cbn; [reflexivity|].
  now rewrite app_nil_r.
Qed.

Lemma logged_logged w l1 l2 : logged (logged w l1) l2 = logged w (l1 ++ l2)%list.
Proof. unfold logged; cbn. now rewrite app_assoc. Qed.

Lemma requests_logged w l : requests (logged w l) = requests w.
Proof. reflexivity. Qed.

Lemma requests_sent w r : requests (sent w r) = (requests w ++ [r])%list.
Proof. reflexivity. Qed.

Lemma send_device_command_run self device_id commands w :
  send_device_command http urljoin py_repr self device_id commands w =
  let r := command_request urljoin py_repr self device_id commands in
  match http (requests w) r with
  | inr body => (inr body, sent w r)
  | inl e =>
      (inl e,
       logged (sent w r)
              (app (request_failed_line e)
               [(ERROR, "Failed to send command to device "
                          ++ py_str py_repr device_id ++ ": " ++ exn_str e)]))
  end.
Proof.
  unfold send_device_command, try_except, command_request.
  rewrite make_request_run.
  destruct (http _ _) as [e|body]; [|reflexivity].
  unfold bind, logger, raise, logged; cbn.
  now rewrite <- app_assoc.
Qed.

Lemma get_devices_run self w :
  get_devices http urljoin self w =
  let r := request_of urljoin self "GET" "/devices" None in
  match http (requests w) r with
  | inr response =>
      match py_get response "items" (JList []) with
      | inr items => (inr items, sent w r)
      | inl e => (inr (JList []),
                  logged (sent w r)
                         [(ERROR, "Failed to get devices: " ++ exn_str e)])
      end
  | inl e =>
      (inr (JList []),
       logged (sent w r)
              (app (request_failed_line e)
               [(ERROR, "Failed to get devices: " ++ exn_str e)]))
  end.
Proof.
  unfold get_devices, try_except, bind.
  rewrite make_request_run.
  destruct (http _ _) as [e|response].
  - unfold logger, ret, logged; cbn. now rewrite <- app_assoc.
  - unfold lift. destruct (py_get response "items" (JList [])); reflexivity.
Qed.

Lemma get_device_run self device_id w :
  get_device http urljoin py_repr self device_id w =
  let r := request_of urljoin self "GET" ("/devices/" ++ py_str py_repr device_id) None in
  match http (requests w) r with
  | inr device => (inr device, sent w r)
  | inl e =>
      (inr JNull,
       logged (sent w r)
              (app (request_failed_line e)
               [(ERROR, "Failed to get device " ++ py_str py_repr device_id
                          ++ ": " ++ exn_str e)]))
  end.
Proof.
  unfold get_device, try_except.
  rewrite make_request_run.
  destruct (http _ _) as [e|device]; [|reflexivity].
  unfold bind, logger, ret, logged; cbn. now rewrite <- app_assoc.
Qed.

(** The outer [try]/[except] of [handle_call_tool], client present. *)
Lemma handle_call_tool_ready self name arguments w :
  handle_call_tool http urljoin py_repr json_dumps (mkServer (Some self))
                   name arguments w =
  match call_tool_body http urljoin py_repr json_dumps self name arguments w with
  | (inr answer, w') => (inr answer, w')
  | (inl e, w') =>
      (inr [text_content ("Error executing " ++ name ++ ": " ++ exn_str e)],
       logged w' [(ERROR, "Error in tool " ++ name ++ ": " ++ exn_str e)])
  end.
Proof.
  unfold handle_call_tool, try_except; cbn.
  destruct (call_tool_body _ _ _ _ _ _ _ _) as [[e|answer] w']; reflexivity.
Qed.

Lemma getitem_found arguments key v :
  dict_lookup arguments key = Some v -> py_getitem arguments key = inr v.
Proof. unfold py_getitem. now intros ->. Qed.

Lemma getitem_missing arguments key :
  dict_lookup arguments key = None ->
  py_getitem arguments key = inl (mkExn KeyError ("'" ++ key ++ "'")).
Proof. unfold py_getitem. now intros ->. Qed.

Ltac run_command_branch Hid Harg :=
  unfold call_tool_body; cbn [String.eqb Ascii.eqb Bool.eqb];
  unfold bind, lift, after_send;
  rewrite (getitem_found _ _ _ Hid), (getitem_found _ _ _ Harg);
  match goal with
  | |- context [send_device_command ?h ?u ?p ?c ?d ?cs ?w] =>
      destruct (send_device_command h u p c d cs w) as [[?e|?result] ?w']
  end; reflexivity.

Lemma body_turn_tv_on_off self arguments device_id action w :
  dict_lookup arguments "device_id" = Some device_id ->
  dict_lookup arguments "action" = Some action ->
  call_tool_body http urljoin py_repr json_dumps self "turn_tv_on_off" arguments w =
  after_send
    (fun result => "TV turned " ++ py_str py_repr action ++ ". Result: "
                     ++ json_dumps result)
    (send_device_command http urljoin py_repr self device_id
       (JList [command (JStr "switch") action None]) w).
Proof. intros Hid Harg. run_command_branch Hid Harg. Qed.

Lemma body_change_tv_volume self arguments device_id volume w :
  dict_lookup arguments "device_id" = Some device_id ->
  dict_lookup arguments "volume" = Some volume ->
  call_tool_body http urljoin py_repr json_dumps self "change_tv_volume" arguments w =
  after_send
    (fun result => "Volume set to " ++ py_str py_repr volume ++ ". Result: "
                     ++ json_dumps result)
    (send_device_command http urljoin py_repr self device_id
       (JList [command (JStr "audioVolume") (JStr "setVolume")
                       (Some (JList [volume]))]) w).
Proof. intros Hid Harg. run_command_branch Hid Harg. Qed.

Lemma body_mute_tv self arguments device_id mute w :
  dict_lookup arguments "device_id" = Some device_id ->
  dict_lookup arguments "mute" = Some mute ->
  call_tool_body http urljoin py_repr json_dumps self "mute_tv" arguments w =
  after_send
    (fun result => "TV " ++ (if py_truthy mute then "muted" else "unmuted")
                     ++ ". Result: " ++ json_dumps result)
    (send_device_command http urljoin py_repr self device_id
       (JList [command (JStr "audioVolume")
                       (JStr (if py_truthy mute then "mute" else "unmute"))
                       None]) w).
Proof. intros Hid Harg. run_command_branch Hid Harg. Qed.

Lemma body_change_tv_channel self arguments device_id channel w :
  dict_lookup arguments "device_id" = Some device_id ->
  dict_lookup arguments "channel" = Some channel ->
  call_tool_body http urljoin py_repr json_dumps self "change_tv_channel" arguments w =
  after_send
    (fun result => "Channel changed to " ++ py_str py_repr channel
                     ++ ". Result: " ++ json_dumps result)
    (send_device_command http urljoin py_repr self device_id
       (JList [command (JStr "tvChannel") (JStr "setTvChannel")
                       (Some (JList [channel]))]) w).
Proof. intros Hid Harg. run_command_branch Hid Harg. Qed.

Lemma body_change_tv_input self arguments device_id input_source w :
  dict_lookup arguments "device_id" = Some device_id ->
  dict_lookup arguments "input_source" = Some input_source ->
  call_tool_body http urljoin py_repr json_dumps self "change_tv_input" arguments w =
  after_send
    (fun result => "Input changed to " ++ py_str py_repr input_source
                     ++ ". Result: " ++ json_dumps result)
    (send_device_command http urljoin py_repr self device_id
       (JList [command (JStr "mediaInputSource") (JStr "setInputSource")
                       (Some (JList [input_source]))]) w).
Proof. intros Hid Harg. run_command_branch Hid Harg. Qed.

(** Whatever the endpoint answers, [send_device_command] makes exactly one
    request, the command request. *)
Lemma send_device_command_requests self device_id commands w :
  requests (snd (send_device_command http urljoin py_repr self device_id commands w))
  = (requests w ++ [command_request urljoin py_repr self device_id commands])%list.
Proof.
  rewrite send_device_command_run; cbv zeta.
  destruct (http _ _); reflexivity.
Qed.

Lemma after_send_requests render r :
  requests (snd (after_send render r)) = requests (snd r).
Proof. destruct r as [[e|result] w']; reflexivity. Qed.

(** A handler whose body made some requests made the same requests. *)
Lemma handle_call_tool_requests self name arguments w :
  requests (snd (handle_call_tool http urljoin py_repr json_dumps
                   (mkServer (Some self)) name arguments w))
  = requests (snd (call_tool_body http urljoin py_repr json_dumps
                     self name arguments w)).
Proof.
  rewrite handle_call_tool_ready.
  destruct (call_tool_body _ _ _ _ _ _ _ _) as [[e|answer] w']; reflexivity.
Qed.

Lemma handle_after_send self name arguments w render r :
  call_tool_body http urljoin py_repr json_dumps self name arguments w
  = after_send render r ->
  handle_call_tool http urljoin py_repr json_dumps (mkServer (Some self))
                   name arguments w
  = rendered name render r.
Proof.
  intros Hbody. rewrite handle_call_tool_ready, Hbody.
  destruct r as [[e|result] w']; reflexivity.
Qed.

(** C5. A [turn_tv_on_off] call with arguments [{device_id: X, action}],
    [action] being ["on"] or ["off"], runs [send_device_command] exactly once,
    for device [X] and the batch of the single command
    [{component: "main", capability: "switch", command: action}], which has
    no ["arguments"] entry; the one request of the call is the POST to
    [/devices/X/commands] carrying that batch. *)
Theorem turn_tv_on_off_one_switch_command self X action arguments w :
  dict_lookup arguments "device_id" = Some (JStr X) ->
  dict_lookup arguments "action" = Some (JStr action) ->
  action = "on" \/ action = "off" ->
  let cmd := [("component", JStr "main");
              ("capability", JStr "switch");
              ("command", JStr action)] in
  let call := handle_call_tool http urljoin py_repr json_dumps
                (mkServer (Some self)) "turn_tv_on_off" arguments w in
  call = rendered "turn_tv_on_off"
           (fun result => "TV turned " ++ action ++ ". Result: "
                            ++ json_dumps result)
           (send_device_command http urljoin py_repr self (JStr X)
              (JList [JDict cmd]) w)
  /\ requests (snd call)
     = (requests w ++
        [mkRequest "POST"
           (urljoin (base_url self) ("/devices/" ++ X ++ "/commands"))
           (headers self)
           (Some (JDict [("commands", JList [JDict cmd])]))])%list
  /\ dict_lookup cmd "arguments" = None.
Proof.
  intros Hid Hact _ cmd call.
  pose proof (body_turn_tv_on_off self arguments _ _ w Hid Hact) as Hbody.
  split; [|split].
  - exact (handle_after_send _ _ _ _ _ _ Hbody).
  - unfold call. rewrite handle_call_tool_requests, Hbody, after_send_requests.
    apply send_device_command_requests.
  - reflexivity.
Qed.

(** C6. A [mute_tv] call builds a single command with capability
    [audioVolume] whose verb is ["mute"] when [mute] is true and ["unmute"]
    when it is false; the command has no ["arguments"] entry either way. *)
Theorem mute_tv_command self device_id mute arguments w :
  dict_lookup arguments "device_id" = Some device_id ->
  dict_lookup arguments "mute" = Some (JBool mute) ->
  let cmd := [("component", JStr "main");
              ("capability", JStr "audioVolume");
              ("command", JStr (if mute then "mute" else "unmute"))] in
  let call := handle_call_tool http urljoin py_repr json_dumps
                (mkServer (Some self)) "mute_tv" arguments w in
  call = rendered "mute_tv"
           (fun result => "TV " ++ (if mute then "muted" else "unmuted")
                            ++ ". Result: " ++ json_dumps result)
           (send_device_command http urljoin py_repr self device_id
              (JList [JDict cmd]) w)
  /\ requests (snd call)
     = (requests w
        ++ [command_request urljoin py_repr self device_id
                            (JList [JDict cmd])])%list
  /\ dict_lookup cmd "arguments" = None.
Proof.
  intros Hid Hmute cmd call.
  pose proof (body_mute_tv self arguments _ _ w Hid Hmute) as Hbody.
  split; [|split].
  - exact (handle_after_send _ _ _ _ _ _ Hbody).
  - unfold call. rewrite handle_call_tool_requests, Hbody, after_send_requests.
    apply send_device_command_requests.
  - destruct mute; reflexivity.
Qed.

(** C7. With no client, a call to any tool name, catalogued or not, with any
    arguments, answers the fixed uninitialized message and leaves the world
    as it was (no request, no log line); the answer is neither the
    unknown-tool text nor an error text. *)
Theorem uninitialized_short_circuit name arguments w :
  handle_call_tool http urljoin py_repr json_dumps (mkServer None)
                   name arguments w
  = (inr [text_content uninitialized_message], w)
  /\ uninitialized_message <> "Unknown tool: " ++ name
  /\ prefix "Error executing" uninitialized_message = false.
Proof.
  split; [reflexivity|split; [|reflexivity]].
  unfold uninitialized_message; cbn. discriminate.
Qed.

(** C4. While the endpoint fails, [get_devices] returns the empty list
    instead of raising and [send_device_command] raises; and a command tool
    whose [send_device_command] raises is answered with exactly one text item
    that begins with ["Error executing"]. *)
Theorem read_absorbs_write_raises self e w :
  (forall r, http (requests w) r = inl e) ->
  fst (get_devices http urljoin self w) = inr (JList [])
  /\ (forall device_id commands,
        fst (send_device_command http urljoin py_repr self device_id commands w)
        = inl e)
  /\ (forall tool arguments,
        In tool handle_list_tools ->
        In (name tool) ["turn_tv_on_off"; "change_tv_volume"; "mute_tv";
                        "change_tv_channel"; "change_tv_input"] ->
        (forall key, In key (required_keys (inputSchema tool)) ->
                     dict_lookup arguments key <> None) ->
        exists item,
          fst (handle_call_tool http urljoin py_repr json_dumps
                 (mkServer (Some self)) (name tool) arguments w) = inr [item]
          /\ type item = "text"
          /\ text item = "Error executing " ++ name tool ++ ": " ++ exn_str e
          /\ prefix "Error executing" (text item) = true).
Proof.
  intros Hdown. split; [|split].
  - rewrite get_devices_run; cbv zeta. now rewrite Hdown.
  - intros device_id commands.
    rewrite send_device_command_run; cbv zeta. now rewrite Hdown.
  - intros tool arguments Htool Hcommand Hargs.
    assert (Hsend : forall device_id commands render,
               fst (rendered (name tool) render
                      (send_device_command http urljoin py_repr self
                         device_id commands w))
               = inr [text_content ("Error executing " ++ name tool ++ ": "
                                      ++ exn_str e)]).
    { intros. rewrite send_device_command_run; cbv zeta.
      now rewrite Hdown. }
    exists (text_content ("Error executing " ++ name tool ++ ": " ++ exn_str e)).
    split; [|split; [reflexivity|split; [reflexivity|reflexivity]]].
    assert (Hpresent : forall key, In key (required_keys (inputSchema tool)) ->
                                   exists v, dict_lookup arguments key = Some v).
    { intros key Hkey. specialize (Hargs key Hkey).
      destruct (dict_lookup arguments key) as [v|]; [now exists v|easy]. }
    clear Hargs.
    cbn in Htool.
    repeat (destruct Htool as [<-|Htool];
            [cbn in Hcommand; try (exfalso; intuition discriminate)|]);
      try contradiction;
      cbn [name] in *;
      (destruct (Hpresent "device_id") as [device_id Hid];
       [cbn; auto|]).
    + destruct (Hpresent "action") as [v Hv]; [cbn; auto|].
      erewrite handle_after_send by (apply body_turn_tv_on_off; eassumption).
      apply Hsend.
    + destruct (Hpresent "volume") as [v Hv]; [cbn; auto|].
      erewrite handle_after_send by (apply body_change_tv_volume; eassumption).
      apply Hsend.
    + destruct (Hpresent "mute") as [v Hv]; [cbn; auto|].
      erewrite handle_after_send by (apply body_mute_tv; eassumption).
      apply Hsend.
    + destruct (Hpresent "channel") as [v Hv]; [cbn; auto|].
      erewrite handle_after_send by (apply body_change_tv_channel; eassumption).
      apply Hsend.
    + destruct (Hpresent "input_source") as [v Hv]; [cbn; auto|].
      erewrite handle_after_send by (apply body_change_tv_input; eassumption).
      apply Hsend.
Qed.

Lemma body_get_device_info self arguments device_id w :
  dict_lookup arguments "device_id" = Some device_id ->
  call_tool_body http urljoin py_repr json_dumps self "get_device_info" arguments w
  = after_send
      (fun device_info =>
         if py_truthy device_info
         then json_dumps device_info
         else "Device " ++ py_str py_repr device_id ++ " not found")
      (get_device http urljoin py_repr self device_id w).
Proof.
  intros Hid. unfold call_tool_body; cbn [String.eqb Ascii.eqb Bool.eqb].
  unfold bind, lift, after_send. rewrite (getitem_found _ _ _ Hid).
  destruct (get_device _ _ _ _ _ _) as [[e|device_info] w']; [reflexivity|].
  destruct (py_truthy device_info); reflexivity.
Qed.

(** What [get_device_info] answers, from what the endpoint answers. *)
Lemma get_device_info_answer self arguments device_id w :
  dict_lookup arguments "device_id" = Some device_id ->
  fst (handle_call_tool http urljoin py_repr json_dumps (mkServer (Some self))
         "get_device_info" arguments w)
  = match http (requests w)
            (request_of urljoin self "GET"
                        ("/devices/" ++ py_str py_repr device_id) None) with
    | inr device =>
        inr [text_content
               (if py_truthy device
                then json_dumps device
                else "Device " ++ py_str py_repr device_id ++ " not found")]
    | inl _ =>
        inr [text_content
               ("Device " ++ py_str py_repr device_id ++ " not found")]
    end.
Proof.
  intros Hid.
  erewrite handle_after_send by (apply body_get_device_info; eassumption).
  rewrite get_device_run; cbv zeta.
  destruct (http _ _); reflexivity.
Qed.

(** C8. When the lookup of [device_id] fails, [get_device] returns [None]
    and a [get_device_info] call answers the single text item
    ["Device <device_id> not found"]; the handler returns, it does not
    raise. *)
Theorem get_device_info_not_found self arguments device_id e w :
  dict_lookup arguments "device_id" = Some device_id ->
  http (requests w)
       (request_of urljoin self "GET" ("/devices/" ++ py_str py_repr device_id)
                   None) = inl e ->
  fst (get_device http urljoin py_repr self device_id w) = inr JNull
  /\ fst (handle_call_tool http urljoin py_repr json_dumps
            (mkServer (Some self)) "get_device_info" arguments w)
     = inr [text_content
              ("Device " ++ py_str py_repr device_id ++ " not found")].
Proof.
  intros Hid Hfail. split.
  - rewrite get_device_run; cbv zeta. now rewrite Hfail.
  - rewrite (get_device_info_answer _ _ _ _ Hid). now rewrite Hfail.
Qed.

Ltac enter_branch :=
  unfold call_tool_body; cbn [String.eqb Ascii.eqb Bool.eqb];
  unfold bind, lift.

(** The first subscript of a branch fails. *)
Ltac first_key_missing Hkey :=
  eexists; split;
  [|enter_branch; rewrite (getitem_missing _ _ Hkey); reflexivity];
  reflexivity.

(** The second subscript fails, unless the first one already did. *)
Ltac second_key_missing arguments Hkey :=
  let Hid := fresh "Hid" in
  destruct (dict_lookup arguments "device_id") eqn:Hid;
  [ eexists; split;
    [|enter_branch;
      rewrite (getitem_found _ _ _ Hid), (getitem_missing _ _ Hkey);
      reflexivity];
    reflexivity
  | first_key_missing Hid ].

(** A call that lacks a required key raises [KeyError] before any client
    operation. *)
Lemma missing_required_key_raises self tool key arguments w :
  In tool handle_list_tools ->
  In key (required_keys (inputSchema tool)) ->
  dict_lookup arguments key = None ->
  exists e,
    exn_kind e = KeyError
    /\ call_tool_body http urljoin py_repr json_dumps self (name tool) arguments w
       = (inl e, w).
Proof.
  intros Htool Hkey Hmissing.
  cbn in Htool.
  repeat (destruct Htool as [<-|Htool]; [cbn in Hkey|]); try contradiction;
    cbn [name];
    repeat (destruct Hkey as [<-|Hkey]); try contradiction;
    first [ first_key_missing Hmissing
          | second_key_missing arguments Hmissing ].
Qed.

(** C9. For every tool of the catalog, a call (client present) whose
    arguments lack one of the tool's required keys raises a [KeyError] inside
    the handler, before any client operation; the handler catches it and
    answers the single text item ["Error executing <tool>: <message>"],
    [<message>] being [str] of the exception. Nothing is raised to the
    caller. *)
Theorem missing_required_key_rendered self tool key arguments w :
  In tool handle_list_tools ->
  In key (required_keys (inputSchema tool)) ->
  dict_lookup arguments key = None ->
  exists e,
    exn_kind e = KeyError
    /\ call_tool_body http urljoin py_repr json_dumps self (name tool) arguments w
       = (inl e, w)
    /\ handle_call_tool http urljoin py_repr json_dumps (mkServer (Some self))
                        (name tool) arguments w
       = (inr [text_content
                 ("Error executing " ++ name tool ++ ": " ++ exn_str e)],
          logged w [(ERROR, "Error in tool " ++ name tool ++ ": " ++ exn_str e)]).
Proof.
  intros Htool Hkey Hmissing.
  destruct (missing_required_key_raises self tool key arguments w
              Htool Hkey Hmissing) as (e & Hkind & Hbody).
  exists e. repeat split; [assumption..|].
  now rewrite handle_call_tool_ready, Hbody.
Qed.

End Properties.

(** C10. [get_device_info] decides on the truthiness of the value
    [get_device] returned, not on whether the fetch succeeded. The call makes
    the one GET for the device. When the fetch succeeds with a falsy value
    (an empty object, for one) the answer is
    ["Device <device_id> not found"], the very answer given under any
    endpoint whose fetch fails, so the two cannot be told apart; and whatever
    value a successful fetch yields, the answer is that value rendered as
    JSON when it is truthy and the not-found message when it is falsy. *)
Theorem falsy_device_reported_not_found
        http urljoin py_repr json_dumps self arguments device_id device w :
  dict_lookup arguments "device_id" = Some device_id ->
  http (requests w)
       (request_of urljoin self "GET" ("/devices/" ++ py_str py_repr device_id)
                   None) = inr device ->
  py_truthy device = false ->
  let answer := fst (handle_call_tool http urljoin py_repr json_dumps
                       (mkServer (Some self)) "get_device_info" arguments w) in
  fst (get_device http urljoin py_repr self device_id w) = inr device
  /\ answer = inr [text_content
                     ("Device " ++ py_str py_repr device_id ++ " not found")]
  /\ (forall http_failing e,
        http_failing (requests w)
          (request_of urljoin self "GET"
                      ("/devices/" ++ py_str py_repr device_id) None) = inl e ->
        fst (handle_call_tool http_failing urljoin py_repr json_dumps
               (mkServer (Some self)) "get_device_info" arguments w) = answer)
  /\ (forall http_other fetched,
        http_other (requests w)
          (request_of urljoin self "GET"
                      ("/devices/" ++ py_str py_repr device_id) None)
        = inr fetched ->
        fst (get_device http_other urljoin py_repr self device_id w)
        = inr fetched
        /\ fst (handle_call_tool http_other urljoin py_repr json_dumps
                  (mkServer (Some self)) "get_device_info" arguments w)
           = inr [text_content
                    (if py_truthy fetched
                     then json_dumps fetched
                     else "Device " ++ py_str py_repr device_id
                            ++ " not found")])
  /\ requests (snd (handle_call_tool http urljoin py_repr json_dumps
                      (mkServer (Some self)) "get_device_info" arguments w))
     = (requests w
        ++ [request_of urljoin self "GET"
                       ("/devices/" ++ py_str py_repr device_id) None])%list.
Proof.
  intros Hid Hok Hfalsy answer. unfold answer.
  rewrite (get_device_info_answer _ _ _ _ _ _ _ _ Hid), Hok, Hfalsy.
  split; [|split; [reflexivity|split; [|split]]].
  - rewrite get_device_run; cbv zeta. now rewrite Hok.
  - intros http_failing e Hfail.
    rewrite (get_device_info_answer _ _ _ _ _ _ _ _ Hid). now rewrite Hfail.
  - intros http_other fetched Hfetched. split.
    + rewrite get_device_run; cbv zeta. now rewrite Hfetched.
    + rewrite (get_device_info_answer _ _ _ _ _ _ _ _ Hid).
      now rewrite Hfetched.
  - rewrite handle_call_tool_requests.
    rewrite (body_get_device_info _ _ _ _ _ _ _ w Hid).
    rewrite after_send_requests, get_device_run; cbv zeta.
    now rewrite Hok.
Qed.




Example urljoin_absolute_devices :
  urljoin_absolute (base_url sample_client) "/devices"
  = "https://api.smartthings.com/devices".
Proof. reflexivity. Qed.

(** ** The TV classification *)

Lemma py_eq_str_true s v : py_eq_str s v = true <-> v = JStr s.
Proof.
  destruct v; cbn; try (split; [discriminate|congruence]).
  rewrite String.eqb_eq. split; congruence.
Qed.

Lemma py_in_true s names : py_in s names = true <-> In (JStr s) names.
Proof.
  unfold py_in. rewrite existsb_exists. split.
  - intros (v & Hin & Heq). apply py_eq_str_true in Heq. now subst.
  - intros Hin. exists (JStr s). split; [assumption|]. now apply py_eq_str_true.
Qed.

(** On a device whose capability identifiers can be read, the classification
    of the one-element list keeps the device exactly when one of the four
    reference identifiers is among them. *)
Lemma classify_one device names :
  capability_names device = inr names ->
  exists tv_devices,
    classify_tv_devices (JList [device]) = inr (JList tv_devices)
    /\ (tv_devices <> [] <->
        exists cap, In cap tv_capabilities /\ In (JStr cap) names).
Proof.
  intros Hnames.
  unfold classify_tv_devices, is_tv_device; cbn [py_iter ebind tv_devices_loop].
  unfold is_tv_device. rewrite Hnames; cbn [ebind].
  destruct (existsb _ tv_capabilities) eqn:Hany; cbn [app];
    eexists; (split; [reflexivity|]).
  - split; [intros _|discriminate].
    apply existsb_exists in Hany as (cap & Hcap & Hin).
    exists cap. split; [assumption|]. now apply py_in_true.
  - split; [congruence|]. intros (cap & Hcap & Hin).
    assert (existsb (fun c => py_in c names) tv_capabilities = true) as Hyes.
    { apply existsb_exists. exists cap. split; [assumption|].
      now apply py_in_true. }
    congruence.
Qed.

(** The identifiers are read for a device without a ["components"] entry (the
    default [[{}]] applies) and for one whose first component lists
    capability objects. *)
Lemma capability_names_default fields :
  dict_lookup fields "components" = None ->
  capability_names (JDict fields) = inr [].
Proof. intros H. unfold capability_names; cbn. now rewrite H. Qed.

Lemma capability_names_first fields first others caps :
  dict_lookup fields "components" = Some (JList (JDict first :: others)) ->
  dict_lookup first "capabilities" = Some (JList (map JDict caps)) ->
  capability_names (JDict fields)
  = inr (map (fun cap => match dict_lookup cap "id" with
                         | Some v => v
                         | None => JStr ""
                         end) caps).
Proof.
  intros Hcomponents Hcaps. unfold capability_names; cbn.
  rewrite Hcomponents; cbn. rewrite Hcaps; cbn. clear.
  induction caps as [|cap caps IH]; cbn; [reflexivity|].
  rewrite IH. now destruct (dict_lookup cap "id").
Qed.

(** An empty component list is not covered by the default: the subscript
    raises, for any such device. *)
Lemma empty_components_not_classified fields :
  dict_lookup fields "components" = Some (JList []) ->
  classify_tv_devices (JList [JDict fields])
  = inl (mkExn IndexError "list index out of range").
Proof.
  intros H. unfold classify_tv_devices; cbn.
  unfold is_tv_device, capability_names; cbn. now rewrite H.
Qed.

(** C1. For the device [{"deviceId": "tv-1", "components": []}] the
    classification is not defined: subscripting the empty component list
    raises [IndexError], [get_tv_devices] raises it too, and a
    [list_tv_devices] call answers an error item instead of a list. *)
Theorem empty_components_raise_IndexError :
  let device := JDict [("deviceId", JStr "tv-1"); ("components", JList [])] in
  let http := http_always (JDict [("items", JList [device])]) in
  classify_tv_devices (JList [device])
  = inl (mkExn IndexError "list index out of range")
  /\ fst (get_tv_devices http urljoin_absolute sample_client initial_world)
     = inl (mkExn IndexError "list index out of range")
  /\ fst (handle_call_tool http urljoin_absolute sample_text sample_text
            sample_server "list_tv_devices" [] initial_world)
     = inr [text_content
              "Error executing list_tv_devices: list index out of range"].
Proof. split; [|split]; reflexivity. Qed.

(** ** Startup *)

(** [get_devices] never raises. *)
Lemma get_devices_returns http urljoin self w :
  exists devices, fst (get_devices http urljoin self w) = inr devices.
Proof.
  rewrite get_devices_run; cbv zeta.
  destruct (http _ _) as [e|response]; [now eexists|].
  destruct (py_get response "items" (JList [])); now eexists.
Qed.

(** A server that [run] lets into the protocol loop has its client. *)
Lemma run_serving_has_client http urljoin self access_token w self' :
  fst (run http urljoin self access_token w) = Serving self' ->
  exists token, client self' = Some (SmartThingsClient_init token).
Proof.
  unfold run. destruct access_token as [[|c token]|]; cbn [fst]; try discriminate.
  destruct (try_except _ _ w) as [[e|[|]] w']; cbn [fst]; try discriminate.
  intros [= <-]. now eexists.
Qed.

(** A failed probe request does not stop [run]: [get_devices] has already
    turned the failure into an empty list. *)
Lemma run_survives_failed_probe http urljoin token e w :
  token <> "" ->
  http (requests w)
       (request_of urljoin (SmartThingsClient_init token) "GET" "/devices" None)
  = inl e ->
  fst (run http urljoin SmartThingsMCPServer_init (Some token) w)
  = Serving (mkServer (Some (SmartThingsClient_init token))).
Proof.
  intros Htoken Hfail. unfold run.
  destruct token as [|c token]; [contradiction|].
  unfold try_except, bind. rewrite get_devices_run; cbv zeta.
  now rewrite Hfail.
Qed.

(** C3. With the token set and the endpoint down, [run] does not exit: the
    probe logs zero devices, the server enters the protocol loop with its
    client set, and a first [list_devices] request is answered. *)
Theorem failed_probe_still_serves :
  run http_down urljoin_absolute SmartThingsMCPServer_init (Some "token")
      initial_world
  = (Serving sample_server,
     mkWorld
       [mkRequest "GET" "https://api.smartthings.com/devices"
                  [("Authorization", "Bearer token");
                   ("Content-Type", "application/json")] None]
       [(ERROR, "API request failed: 503, message='Service Unavailable'");
        (ERROR, "Failed to get devices: 503, message='Service Unavailable'");
        (INFO, "Connected to SmartThings. Found 0 devices.")])
  /\ fst (main http_down urljoin_absolute sample_text sample_text
            (Some "token") [("list_devices", [])] initial_world)
     = Served [inr [text_content "[]"]].
Proof. split; reflexivity. Qed.

(** ** The volume range *)

(** The handler on its own checks no range: a [change_tv_volume] call that
    reaches it with a volume runs [send_device_command] exactly once with a
    [setVolume] command whose argument list is that volume unchanged. The
    bounds 0 and 100 are what the catalog declares for [volume] (an integer)
    in the tool's input schema; they are enforced at the schema boundary. *)
Lemma change_tv_volume_sends_volume_unchecked
        http urljoin py_repr json_dumps self device_id volume arguments w :
  dict_lookup arguments "device_id" = Some device_id ->
  dict_lookup arguments "volume" = Some volume ->
  let cmd := [("component", JStr "main");
              ("capability", JStr "audioVolume");
              ("command", JStr "setVolume");
              ("arguments", JList [volume])] in
  let call := handle_call_tool http urljoin py_repr json_dumps
                (mkServer (Some self)) "change_tv_volume" arguments w in
  call = rendered "change_tv_volume"
           (fun result => "Volume set to " ++ py_str py_repr volume
                            ++ ". Result: " ++ json_dumps result)
           (send_device_command http urljoin py_repr self device_id
              (JList [JDict cmd]) w)
  /\ requests (snd call)
     = (requests w
        ++ [command_request urljoin py_repr self device_id
                            (JList [JDict cmd])])%list
  /\ declared "change_tv_volume" "volume" "type" = Some (JStr "integer")
  /\ declared "change_tv_volume" "volume" "minimum" = Some (JInt 0)
  /\ declared "change_tv_volume" "volume" "maximum" = Some (JInt 100).
Proof.
  intros Hid Hvolume cmd call.
  pose proof (body_change_tv_volume http urljoin py_repr json_dumps
                self arguments _ _ w Hid Hvolume) as Hbody.
  split; [|split; [|repeat split]].
  - exact (handle_after_send _ _ _ _ _ _ _ _ _ _ Hbody).
  - unfold call. rewrite handle_call_tool_requests, Hbody, after_send_requests.
    apply send_device_command_requests.
Qed.

(** What the boundary accepts for [change_tv_volume]: a string for the
    device and an integer from 0 to 100 for the volume. *)
Lemma conforms_change_tv_volume arguments :
  conforms (inputSchema (tool_named "change_tv_volume")) arguments = true
  <-> exists id n,
        dict_lookup arguments "device_id" = Some (JStr id)
        /\ dict_lookup arguments "volume" = Some (JInt n)
        /\ (0 <= n <= 100)%Z.
Proof.
  unfold conforms; cbn.
  destruct (dict_lookup arguments "device_id") as [device_id|];
    [|split; [discriminate|intros (id & n & H & _); discriminate]].
  destruct (dict_lookup arguments "volume") as [volume|];
    [|split; [discriminate|intros (id & n & _ & H & _); discriminate]].
  cbn. split.
  - intros H.
    destruct device_id; try discriminate.
    destruct volume; try discriminate.
    unfold conforms_property in H; cbn in H.
    rewrite !andb_true_r in H. apply andb_true_iff in H as [Hlow Hhigh].
    apply Z.leb_le in Hlow, Hhigh. now exists s, n.
  - intros (id & n & [= ->] & [= ->] & Hlow & Hhigh).
    unfold conforms_property; cbn.
    apply Z.leb_le in Hlow, Hhigh. now rewrite Hlow, Hhigh.
Qed.

(** C2. A [change_tv_volume] call whose volume is not an integer from 0 to
    100 (150, for one) is rejected at the schema boundary: the handler is not
    run, the world is left as it was, so no client operation takes place.
    Hence whatever the arguments, a request made by a [change_tv_volume] call
    is the post of a [setVolume] command whose volume is an integer from 0
    to 100: no command with an out-of-range volume is ever sent. *)
Theorem out_of_range_volume_is_rejected
        http urljoin py_repr json_dumps server arguments w :
  let call := call_tool http urljoin py_repr json_dumps server
                        "change_tv_volume" arguments w in
  (forall volume,
     dict_lookup arguments "volume" = Some volume ->
     (forall n, volume = JInt n -> (n < 0 \/ 100 < n)%Z) ->
     call = (None, w))
  /\ (forall r,
        In r (requests (snd call)) ->
        In r (requests w)
        \/ exists self device_id n,
             client server = Some self
             /\ (0 <= n <= 100)%Z
             /\ r = command_request urljoin py_repr self device_id
                      (JList [JDict [("component", JStr "main");
                                     ("capability", JStr "audioVolume");
                                     ("command", JStr "setVolume");
                                     ("arguments", JList [JInt n])]])).
Proof.
  cbv zeta. unfold call_tool.
  change (find_tool "change_tv_volume")
    with (Some (tool_named "change_tv_volume")).
  destruct (conforms (inputSchema (tool_named "change_tv_volume")) arguments)
    eqn:Hconforms.
  - apply conforms_change_tv_volume in Hconforms
      as (id & n & Hid & Hvolume & Hrange).
    split.
    + intros volume Hlookup Hout. rewrite Hvolume in Hlookup.
      injection Hlookup as <-. specialize (Hout n eq_refl). lia.
    + intros r Hr. destruct server as [[self|]]; [|now left].
      destruct (handle_call_tool _ _ _ _ _ _ _ w) as [answer w'] eqn:Hcall.
      assert (Hrequests : requests w'
                          = (requests w
                             ++ [command_request urljoin py_repr self (JStr id)
                                   (JList [command (JStr "audioVolume")
                                                   (JStr "setVolume")
                                                   (Some (JList [JInt n]))])])
                            %list).
      { change w' with (snd (answer, w')). rewrite <- Hcall.
        rewrite handle_call_tool_requests.
        rewrite (body_change_tv_volume _ _ _ _ _ _ _ _ w Hid Hvolume).
        rewrite after_send_requests. apply send_device_command_requests. }
      cbn [snd] in Hr. rewrite Hrequests in Hr.
      apply in_app_or in Hr as [Hr|[<-|[]]]; [now left|right].
      now exists self, (JStr id), n.
  - split; [reflexivity|]. intros r Hr. now left.
Qed.

(** ** The theorems at concrete calls *)

Lemma out_of_range_volume_is_rejected_witness :
  call_tool (http_always (JDict [])) urljoin_absolute sample_text sample_text
            sample_server "change_tv_volume"
            [("device_id", JStr "X"); ("volume", JInt 150)] initial_world
  = (None, initial_world).
Proof.
  apply (proj1 (out_of_range_volume_is_rejected
                  (http_always (JDict [])) urljoin_absolute
                  sample_text sample_text sample_server
                  [("device_id", JStr "X"); ("volume", JInt 150)]
                  initial_world)
               (JInt 150) eq_refl).
  intros n [= <-]. right. reflexivity.
Defined.


Lemma read_absorbs_write_raises_witness :
  fst (get_devices http_down urljoin_absolute sample_client initial_world)
  = inr (JList [])
  /\ fst (send_device_command http_down urljoin_absolute sample_text
            sample_client (JStr "X") (JList []) initial_world)
     = inl (mkExn ClientError "503, message='Service Unavailable'")
  /\ exists item,
       fst (handle_call_tool http_down urljoin_absolute sample_text sample_text
              sample_server "mute_tv"
              [("device_id", JStr "X"); ("mute", JBool true)] initial_world)
       = inr [item]
       /\ type item = "text"
       /\ text item
          = "Error executing mute_tv: 503, message='Service Unavailable'"
       /\ prefix "Error executing" (text item) = true.
Proof.
  destruct (read_absorbs_write_raises
              http_down urljoin_absolute sample_text sample_text sample_client
              (mkExn ClientError "503, message='Service Unavailable'")
              initial_world (fun _ => eq_refl)) as (Hread & Hwrite & Hcall).
  split; [exact Hread|split; [exact (Hwrite (JStr "X") (JList []))|]].
  apply (Hcall (tool_named "mute_tv")
               [("device_id", JStr "X"); ("mute", JBool true)]).
  - cbn. tauto.
  - cbn. tauto.
  - intros key [<-|[<-|[]]]; discriminate.
Defined.

Lemma turn_tv_on_off_one_switch_command_witness :
  let arguments := [("device_id", JStr "X"); ("action", JStr "on")] in
  requests (snd (handle_call_tool (http_always (JDict [])) urljoin_absolute
                   sample_text sample_text sample_server
                   "turn_tv_on_off" arguments initial_world))
  = [mkRequest "POST" "https://api.smartthings.com/devices/X/commands"
       (headers sample_client)
       (Some (JDict [("commands",
                      JList [JDict [("component", JStr "main");
                                    ("capability", JStr "switch");
                                    ("command", JStr "on")]])]))].
Proof.
  intros arguments.
  exact (proj1 (proj2 (turn_tv_on_off_one_switch_command
                         (http_always (JDict [])) urljoin_absolute
                         sample_text sample_text sample_client
                         "X" "on" arguments initial_world
                         eq_refl eq_refl (or_introl eq_refl)))).
Defined.

Lemma mute_tv_command_witness :
  let arguments := [("device_id", JStr "X"); ("mute", JBool false)] in
  requests (snd (handle_call_tool (http_always (JDict [])) urljoin_absolute
                   sample_text sample_text sample_server
                   "mute_tv" arguments initial_world))
  = [mkRequest "POST" "https://api.smartthings.com/devices/X/commands"
       (headers sample_client)
       (Some (JDict [("commands",
                      JList [JDict [("component", JStr "main");
                                    ("capability", JStr "audioVolume");
                                    ("command", JStr "unmute")]])]))].
Proof.
  intros arguments.
  exact (proj1 (proj2 (mute_tv_command
                         (http_always (JDict [])) urljoin_absolute
                         sample_text sample_text sample_client
                         (JStr "X") false arguments initial_world
                         eq_refl eq_refl))).
Defined.

Lemma get_device_info_not_found_witness :
  fst (handle_call_tool http_down urljoin_absolute sample_text sample_text
         sample_server "get_device_info" [("device_id", JStr "nope")]
         initial_world)
  = inr [text_content "Device nope not found"].
Proof.
  exact (proj2 (get_device_info_not_found
                  http_down urljoin_absolute sample_text sample_text
                  sample_client [("device_id", JStr "nope")] (JStr "nope")
                  (mkExn ClientError "503, message='Service Unavailable'")
                  initial_world eq_refl eq_refl)).
Defined.

Lemma missing_required_key_rendered_witness :
  exists e,
    exn_kind e = KeyError
    /\ call_tool_body http_down urljoin_absolute sample_text sample_text
         sample_client "turn_tv_on_off" [("device_id", JStr "X")] initial_world
       = (inl e, initial_world)
    /\ handle_call_tool http_down urljoin_absolute sample_text sample_text
         sample_server "turn_tv_on_off" [("device_id", JStr "X")] initial_world
       = (inr [text_content ("Error executing turn_tv_on_off: " ++ exn_str e)],
          logged initial_world
                 [(ERROR, "Error in tool turn_tv_on_off: " ++ exn_str e)]).
Proof.
  apply (missing_required_key_rendered
           http_down urljoin_absolute sample_text sample_text sample_client
           (tool_named "turn_tv_on_off") "action").
  - cbn. tauto.
  - cbn. tauto.
  - reflexivity.
Defined.

Lemma falsy_device_reported_not_found_witness :
  fst (handle_call_tool (http_always (JDict [])) urljoin_absolute
         sample_text sample_text sample_server
         "get_device_info" [("device_id", JStr "X")] initial_world)
  = inr [text_content "Device X not found"]
  /\ fst (handle_call_tool http_down urljoin_absolute
            sample_text sample_text sample_server
            "get_device_info" [("device_id", JStr "X")] initial_world)
     = fst (handle_call_tool (http_always (JDict [])) urljoin_absolute
              sample_text sample_text sample_server
              "get_device_info" [("device_id", JStr "X")] initial_world)
  /\ fst (handle_call_tool (http_always (JDict [("deviceId", JStr "X")]))
            urljoin_absolute sample_text sample_text sample_server
            "get_device_info" [("device_id", JStr "X")] initial_world)
     = inr [text_content (sample_text (JDict [("deviceId", JStr "X")]))]
  /\ requests (snd (handle_call_tool (http_always (JDict [])) urljoin_absolute
                      sample_text sample_text sample_server
                      "get_device_info" [("device_id", JStr "X")]
                      initial_world))
     = [mkRequest "GET" "https://api.smartthings.com/devices/X"
                  (headers sample_client) None].
Proof.
  destruct (falsy_device_reported_not_found
              (http_always (JDict [])) urljoin_absolute sample_text sample_text
              sample_client [("device_id", JStr "X")] (JStr "X") (JDict [])
              initial_world eq_refl eq_refl eq_refl)
    as (_ & Hanswer & Hsame & Hdecided & Hrequests).
  split; [exact Hanswer|].
  split; [exact (Hsame http_down
                   (mkExn ClientError "503, message='Service Unavailable'")
                   eq_refl)|].
  split; [|exact Hrequests].
  exact (proj2 (Hdecided (http_always (JDict [("deviceId", JStr "X")]))
                         (JDict [("deviceId", JStr "X")]) eq_refl)).
Defined.

(** * Further properties of the client *)

Section ClientProperties.

Variable http : list Request -> Request -> E json.
Variable urljoin : string -> string -> string.
Variable py_repr : json -> string.

Lemma get_device_status_run self device_id w :
  get_device_status http urljoin py_repr self device_id w =
  let r := request_of urljoin self "GET"
                      ("/devices/" ++ py_str py_repr device_id ++ "/status")
                      None in
  match http (requests w) r with
  | inr status => (inr status, sent w r)
  | inl e =>
      (inr JNull,
       logged (sent w r)
              (app (request_failed_line e)
               [(ERROR, "Failed to get device status for "
                          ++ py_str py_repr device_id ++ ": " ++ exn_str e)]))
  end.
Proof.
  unfold get_device_status, try_except.
  rewrite make_request_run.
  destruct (http _ _) as [e|status]; [|reflexivity].
  unfold bind, logger, ret, logged; cbn. now rewrite <- app_assoc.
Qed.

Lemma requests_get_devices self w :
  requests (snd (get_devices http urljoin self w))
  = (requests w ++ [request_of urljoin self "GET" "/devices" None])%list.
Proof.
  rewrite get_devices_run; cbv zeta.
  destruct (http _ _) as [e|response]; [reflexivity|].
  destruct (py_get response "items" (JList [])); reflexivity.
Qed.

Lemma requests_get_device self device_id w :
  requests (snd (get_device http urljoin py_repr self device_id w))
  = (requests w
     ++ [request_of urljoin self "GET"
                    ("/devices/" ++ py_str py_repr device_id) None])%list.
Proof.
  rewrite get_device_run; cbv zeta. destruct (http _ _); reflexivity.
Qed.

Lemma requests_get_device_status self device_id w :
  requests (snd (get_device_status http urljoin py_repr self device_id w))
  = (requests w
     ++ [request_of urljoin self "GET"
                    ("/devices/" ++ py_str py_repr device_id ++ "/status")
                    None])%list.
Proof.
  rewrite get_device_status_run; cbv zeta. destruct (http _ _); reflexivity.
Qed.

(** X1. The three read operations never raise, whatever the endpoint does,
    and each makes exactly one request: a GET without body on [/devices],
    [/devices/<id>] and [/devices/<id>/status]. *)
Theorem read_operations_absorb_failures self device_id w :
  let id := py_str py_repr device_id in
  (exists devices, fst (get_devices http urljoin self w) = inr devices)
  /\ (exists device,
        fst (get_device http urljoin py_repr self device_id w) = inr device)
  /\ (exists status,
        fst (get_device_status http urljoin py_repr self device_id w)
        = inr status)
  /\ requests (snd (get_devices http urljoin self w))
     = (requests w ++ [request_of urljoin self "GET" "/devices" None])%list
  /\ requests (snd (get_device http urljoin py_repr self device_id w))
     = (requests w
        ++ [request_of urljoin self "GET" ("/devices/" ++ id) None])%list
  /\ requests (snd (get_device_status http urljoin py_repr self device_id w))
     = (requests w
        ++ [request_of urljoin self "GET" ("/devices/" ++ id ++ "/status")
                       None])%list.
Proof.
  cbv zeta. repeat split.
  - apply get_devices_returns.
  - rewrite get_device_run; cbv zeta. destruct (http _ _); now eexists.
  - rewrite get_device_status_run; cbv zeta. destruct (http _ _); now eexists.
  - apply requests_get_devices.
  - apply requests_get_device.
  - apply requests_get_device_status.
Qed.

(** X2. [send_device_command] hands the outcome of its one POST through
    unchanged: the decoded body when the request succeeds, the very exception
    when it fails; the request carries the batch under ["commands"]. *)
Theorem send_device_command_passes_outcome self device_id commands w :
  let r := mkRequest "POST"
             (urljoin (base_url self)
                      ("/devices/" ++ py_str py_repr device_id ++ "/commands"))
             (headers self)
             (Some (JDict [("commands", commands)])) in
  fst (send_device_command http urljoin py_repr self device_id commands w)
  = http (requests w) r
  /\ requests (snd (send_device_command http urljoin py_repr self
                      device_id commands w))
     = (requests w ++ [r])%list.
Proof.
  cbv zeta. rewrite send_device_command_run; cbv zeta.
  unfold command_request, request_of.
  destruct (http _ _); split; reflexivity.
Qed.

(** X3. What [get_devices] returns: the value under ["items"] when the body
    is an object that has one, and the empty list in every other case (no
    ["items"] entry, a body that is not an object, a failed request). *)
Theorem get_devices_result self w :
  fst (get_devices http urljoin self w)
  = inr match http (requests w) (request_of urljoin self "GET" "/devices" None)
        with
        | inr (JDict fields) =>
            match dict_lookup fields "items" with
            | Some items => items
            | None => JList []
            end
        | _ => JList []
        end.
Proof.
  rewrite get_devices_run; cbv zeta.
  destruct (http _ _) as [e|response]; [reflexivity|].
  destruct response; try reflexivity.
  cbn. now destruct (dict_lookup fields "items").
Qed.

End ClientProperties.

(** * Further properties of the TV classification *)

Lemma is_tv_device_tv_like device :
  readable device -> is_tv_device device = inr (tv_like device).
Proof.
  intros [tv Htv]. unfold tv_like. rewrite Htv. now destruct tv.
Qed.

Lemma tv_devices_loop_filter devices tv_devices :
  Forall readable devices ->
  tv_devices_loop devices tv_devices
  = inr (tv_devices ++ filter tv_like devices)%list.
Proof.
  intros Hall. revert tv_devices.
  induction Hall as [|device rest Hdevice _ IH]; intros tv_devices; cbn.
  - now rewrite app_nil_r.
  - rewrite (is_tv_device_tv_like _ Hdevice); cbn.
    rewrite IH. destruct (tv_like device); [|reflexivity].
    now rewrite <- app_assoc.
Qed.

Lemma tv_devices_loop_defined devices tv_devices result :
  tv_devices_loop devices tv_devices = inr result -> Forall readable devices.
Proof.
  revert tv_devices.
  induction devices as [|device rest IH]; intros tv_devices Hloop;
    [constructor|].
  cbn in Hloop. destruct (is_tv_device device) as [e|tv] eqn:Htv;
    [discriminate|].
  constructor; [now exists tv|]. exact (IH _ Hloop).
Qed.

(** X4. On a list of devices the classification returns a result exactly
    when the test goes through on every device, and the result is then the
    devices that pass the test, in their order. *)
Theorem classify_tv_devices_is_filter devices result :
  classify_tv_devices (JList devices) = inr result
  <-> Forall readable devices /\ result = JList (filter tv_like devices).
Proof.
  unfold classify_tv_devices; cbn [py_iter ebind]. split.
  - intros Hresult.
    destruct (tv_devices_loop devices []) as [e|tv_devices] eqn:Hloop;
      [discriminate|].
    pose proof (tv_devices_loop_defined _ _ _ Hloop) as Hall.
    rewrite (tv_devices_loop_filter _ [] Hall) in Hloop.
    split; [assumption|]. cbn in Hresult, Hloop. congruence.
  - intros [Hall ->]. now rewrite (tv_devices_loop_filter _ [] Hall).
Qed.

(** X5. One device on which the test raises makes the whole classification
    raise, whatever the devices before and after it are: nothing of the list
    is returned. The exception is that of the first such device: it is the
    exception of this device when the test goes through on all devices
    before it. *)
Theorem one_unreadable_device_fails_all before device after e :
  is_tv_device device = inl e ->
  (exists e',
     classify_tv_devices (JList (before ++ device :: after)) = inl e')
  /\ (Forall readable before ->
      classify_tv_devices (JList (before ++ device :: after)) = inl e).
Proof.
  intros Hdevice. split.
  - destruct (classify_tv_devices (JList (before ++ device :: after)))
      as [e'|result] eqn:Hresult; [now exists e'|exfalso].
    unfold classify_tv_devices in Hresult; cbn [py_iter ebind] in Hresult.
    destruct (tv_devices_loop (before ++ device :: after) [])
      as [e'|tv_devices] eqn:Hloop; [discriminate|].
    apply tv_devices_loop_defined in Hloop.
    rewrite Forall_forall in Hloop.
    destruct (Hloop device) as [tv Htv]; [apply in_elt|congruence].
  - intros Hbefore.
    unfold classify_tv_devices; cbn [py_iter ebind].
    assert (Hloop : forall tv_devices,
               tv_devices_loop (before ++ device :: after) tv_devices = inl e).
    { induction Hbefore as [|d rest Hd _ IH]; intros tv_devices; cbn.
      - now rewrite Hdevice.
      - rewrite (is_tv_device_tv_like _ Hd); cbn. apply IH. }
    now rewrite Hloop.
Qed.

Lemma filter_twice {A} (f : A -> bool) (l : list A) :
  filter f (filter f l) = filter f l.
Proof.
  induction l as [|x l IH]; cbn; [reflexivity|].
  destruct (f x) eqn:Hx; cbn; [rewrite Hx; now f_equal|assumption].
Qed.

(** X6. Classifying a classification changes nothing: the devices
    [get_tv_devices] keeps are all kept again. *)
Theorem classify_tv_devices_idempotent devices result :
  classify_tv_devices (JList devices) = inr result ->
  classify_tv_devices result = inr result.
Proof.
  unfold classify_tv_devices; cbn [py_iter ebind]. intros Hresult.
  destruct (tv_devices_loop devices []) as [e|tv_devices] eqn:Hloop;
    [discriminate|].
  injection Hresult as <-. cbn [py_iter ebind].
  pose proof (tv_devices_loop_defined _ _ _ Hloop) as Hall.
  rewrite (tv_devices_loop_filter _ [] Hall) in Hloop.
  injection Hloop as <-. cbn [app].
  assert (Hkept : Forall readable (filter tv_like devices)).
  { rewrite Forall_forall in *. intros d Hd.
    apply filter_In in Hd as [Hd _]. now apply Hall. }
  rewrite (tv_devices_loop_filter _ [] Hkept); cbn [app ebind].
  now rewrite filter_twice.
Qed.

(** X7. Only the first component counts. For a device whose first component
    lists capability objects, the test goes through, and the device is
    TV-like exactly when one of those objects has an ["id"] among the four
    reference identifiers; the other components and the other fields of the
    device play no part. *)
Theorem is_tv_device_first_component fields first others caps :
  dict_lookup fields "components" = Some (JList (JDict first :: others)) ->
  dict_lookup first "capabilities" = Some (JList (map JDict caps)) ->
  exists tv,
    is_tv_device (JDict fields) = inr tv
    /\ (tv = true <->
        exists cap id,
          In cap caps /\ In id tv_capabilities
          /\ dict_lookup cap "id" = Some (JStr id)).
Proof.
  intros Hcomponents Hcaps. unfold is_tv_device.
  rewrite (capability_names_first _ _ _ _ Hcomponents Hcaps); cbn [ebind].
  eexists; split; [reflexivity|].
  rewrite existsb_exists. split.
  - intros (id & Hid & Hin). apply py_in_true in Hin.
    apply in_map_iff in Hin as (cap & Hcap & Hin).
    exists cap, id. repeat split; try assumption.
    destruct (dict_lookup cap "id") as [v|]; [congruence|].
    injection Hcap as <-. cbn in Hid. intuition discriminate.
  - intros (cap & id & Hcap & Hid & Hlookup).
    exists id. split; [assumption|]. apply py_in_true.
    apply in_map_iff. exists cap. now rewrite Hlookup.
Qed.

(** X8. The defaults of the test: a device object without a ["components"]
    entry, and one whose first component is an object without a
    ["capabilities"] entry, are read without error and are not TV-like. *)
Theorem is_tv_device_defaults fields :
  (dict_lookup fields "components" = None ->
   is_tv_device (JDict fields) = inr false)
  /\ (forall first others,
        dict_lookup fields "components" = Some (JList (JDict first :: others)) ->
        dict_lookup first "capabilities" = None ->
        is_tv_device (JDict fields) = inr false).
Proof.
  split.
  - intros H. unfold is_tv_device.
    now rewrite (capability_names_default _ H).
  - intros first others Hcomponents Hcaps.
    unfold is_tv_device, capability_names; cbn.
    rewrite Hcomponents; cbn. now rewrite Hcaps.
Qed.

(** * Further properties of the dispatcher *)

Section DispatcherProperties.

Variable http : list Request -> Request -> E json.
Variable urljoin : string -> string -> string.
Variable py_repr : json -> string.
Variable json_dumps : json -> string.

(** ** How the request history grows under the monad's operations *)

Lemma kept_ret {A} (a : A) : requests_kept (ret a).
Proof. intros w. reflexivity. Qed.

Lemma kept_lift {A} (m : E A) : requests_kept (lift m).
Proof. intros w. reflexivity. Qed.

Lemma kept_bind {A B} (m : M A) (k : A -> M B) :
  requests_kept m -> (forall a, requests_kept (k a)) -> requests_kept (bind m k).
Proof.
  intros Hm Hk w. unfold bind. specialize (Hm w).
  destruct (m w) as [[e|a] w']; cbn in *; [assumption|].
  now rewrite Hk.
Qed.

Lemma at_most_one_of_kept {A} p (m : M A) :
  requests_kept m -> requests_at_most_one p m.
Proof. intros Hm w. now left. Qed.

Lemma at_most_one_of_one {A} p (m : M A) :
  requests_one p m -> requests_at_most_one p m.
Proof. intros Hm w. right. apply Hm. Qed.

Lemma one_bind_kept {A B} p (m : M A) (k : A -> M B) :
  requests_one p m -> (forall a, requests_kept (k a)) ->
  requests_one p (bind m k).
Proof.
  intros Hm Hk w. unfold bind. destruct (Hm w) as (r & Hr & Hp).
  exists r. split; [|assumption].
  destruct (m w) as [[e|a] w']; cbn in *; [assumption|].
  now rewrite Hk.
Qed.

Lemma at_most_one_bind_kept {A B} p (m : M A) (k : A -> M B) :
  requests_kept m -> (forall a, requests_at_most_one p (k a)) ->
  requests_at_most_one p (bind m k).
Proof.
  intros Hm Hk w. unfold bind. specialize (Hm w).
  destruct (m w) as [[e|a] w']; cbn in *; [now left|].
  rewrite <- Hm. apply Hk.
Qed.

Lemma at_most_one_try_except {A} p (m : M A) (h : exn -> M A) :
  requests_at_most_one p m -> (forall e, requests_kept (h e)) ->
  requests_at_most_one p (try_except m h).
Proof.
  intros Hm Hh w. unfold try_except. specialize (Hm w).
  destruct (m w) as [[e|a] w']; cbn [snd] in *; [|assumption].
  rewrite (Hh e w'). exact Hm.
Qed.

(** ** The client operations make one request each *)

Lemma from_client_get self endpoint :
  from_client urljoin self (request_of urljoin self "GET" endpoint None).
Proof.
  split; [reflexivity|split; [left; split; reflexivity|now exists endpoint]].
Qed.

Lemma from_client_post self endpoint data :
  from_client urljoin self (request_of urljoin self "POST" endpoint (Some data)).
Proof.
  split; [reflexivity|split; [right; split; [reflexivity|discriminate]|]].
  now exists endpoint.
Qed.

Lemma one_get_devices self :
  requests_one (client_request urljoin self "GET")
               (get_devices http urljoin self).
Proof.
  intros w. eexists; split; [apply requests_get_devices|].
  split; [apply from_client_get|reflexivity].
Qed.

Lemma one_get_device self device_id :
  requests_one (client_request urljoin self "GET")
               (get_device http urljoin py_repr self device_id).
Proof.
  intros w. eexists; split; [apply requests_get_device|].
  split; [apply from_client_get|reflexivity].
Qed.

Lemma one_get_device_status self device_id :
  requests_one (client_request urljoin self "GET")
               (get_device_status http urljoin py_repr self device_id).
Proof.
  intros w. eexists; split; [apply requests_get_device_status|].
  split; [apply from_client_get|reflexivity].
Qed.

Lemma one_send_device_command self device_id commands :
  requests_one (client_request urljoin self "POST")
               (send_device_command http urljoin py_repr self device_id commands).
Proof.
  intros w. eexists; split; [apply send_device_command_requests|].
  split; [apply from_client_post|reflexivity].
Qed.

Lemma one_get_tv_devices self :
  requests_one (client_request urljoin self "GET")
               (get_tv_devices http urljoin self).
Proof.
  apply one_bind_kept; [apply one_get_devices|intros; apply kept_lift].
Qed.

(** ** A call as a whole *)

Ltac split_on_name :=
  unfold call_tool_body;
  repeat match goal with
         | |- context [if String.eqb ?a ?b then _ else _] =>
             destruct (String.eqb a b)
         end.

(** The same, remembering which name each branch is for. *)
Ltac split_on_known_name :=
  unfold call_tool_body;
  repeat match goal with
         | |- context [if String.eqb ?a ?b then _ else _] =>
             let Hname := fresh "Hname" in
             destruct (String.eqb a b) eqn:Hname;
             [apply String.eqb_eq in Hname; subst a|clear Hname]
         end.

Lemma kept_if_ret {A} (b : bool) (x y : A) :
  requests_kept (if b then ret x else ret y).
Proof. destruct b; apply kept_ret. Qed.

Lemma body_at_most_one self name arguments :
  requests_at_most_one
    (client_request urljoin self
                    (if is_query_tool name then "GET" else "POST"))
    (call_tool_body http urljoin py_repr json_dumps self name arguments).
Proof.
  split_on_known_name;
    repeat (apply at_most_one_bind_kept; [apply kept_lift|intros]);
    try (apply at_most_one_of_kept, kept_ret);
    apply at_most_one_of_one, one_bind_kept;
    first [ apply one_get_devices | apply one_get_tv_devices
          | apply one_get_device | apply one_get_device_status
          | apply one_send_device_command
          | intros; first [apply kept_ret | apply kept_if_ret] ].
Qed.

(** X9. A tool call makes at most one request, whatever the tool name, the
    arguments and the endpoint: the request history is left as it was or is
    extended by a single request. That request carries the client's headers;
    it is a GET without body for the four query tools and a POST with a body
    for any other tool, so the query tools never send a command. *)
Theorem call_makes_at_most_one_request server name arguments w :
  let w' := snd (handle_call_tool http urljoin py_repr json_dumps
                   server name arguments w) in
  requests w' = requests w
  \/ exists self r,
       client server = Some self
       /\ requests w' = (requests w ++ [r])%list
       /\ from_client urljoin self r
       /\ req_method r = if is_query_tool name then "GET" else "POST".
Proof.
  cbv zeta. destruct server as [[self|]]; [|now left].
  rewrite handle_call_tool_requests.
  destruct (body_at_most_one self name arguments w)
    as [Hkept|(r & Hr & Hp & Hmethod)]; [now left|right].
  now exists self, r.
Qed.

Lemma bind_returns {A B} (m : M A) (k : A -> M B) w b w2 :
  bind m k w = (inr b, w2) ->
  exists a w1, m w = (inr a, w1) /\ k a w1 = (inr b, w2).
Proof.
  unfold bind. destruct (m w) as [[e|a] w1]; [discriminate|].
  intros H. now exists a, w1.
Qed.

Lemma body_one_item self name arguments w answer w' :
  call_tool_body http urljoin py_repr json_dumps self name arguments w
  = (inr answer, w') ->
  exists line, answer = [text_content line].
Proof.
  split_on_name; intros H;
    repeat (apply bind_returns in H as (? & ? & _ & H));
    try match type of H with
        | (if ?b then _ else _) _ = _ => destruct b
        end;
    injection H as <- _; now eexists.
Qed.

(** X10. [handle_call_tool] never raises and always answers exactly one
    item, of type ["text"]: with or without client, for every tool name,
    every arguments and every behaviour of the endpoint. *)
Theorem call_answers_one_text_item server name arguments w :
  exists line,
    fst (handle_call_tool http urljoin py_repr json_dumps
           server name arguments w)
    = inr [mkTextContent "text" line].
Proof.
  destruct server as [[self|]]; [|now eexists].
  rewrite handle_call_tool_ready.
  destruct (call_tool_body _ _ _ _ _ _ _ _) as [[e|answer] w'] eqn:Hbody;
    [now eexists|].
  destruct (body_one_item _ _ _ _ _ _ Hbody) as [line ->]. now exists line.
Qed.

(** X11. A name that is not in the catalog of [handle_list_tools] is
    answered ["Unknown tool: <name>"]: no request, no log line, no error. *)
Theorem unknown_tool_is_reported self tool_name arguments w :
  ~ In tool_name (map name handle_list_tools) ->
  handle_call_tool http urljoin py_repr json_dumps (mkServer (Some self))
                   tool_name arguments w
  = (inr [text_content ("Unknown tool: " ++ tool_name)], w).
Proof.
  intros Hname.
  assert (Hneq : forall known,
             In known (map name handle_list_tools) ->
             String.eqb tool_name known = false).
  { intros known Hknown. apply String.eqb_neq. now intros ->. }
  rewrite handle_call_tool_ready. unfold call_tool_body.
  rewrite !Hneq by (cbn; tauto). reflexivity.
Qed.

(** ** The branches one by one *)

Lemma body_list_devices self arguments w :
  call_tool_body http urljoin py_repr json_dumps self "list_devices" arguments w
  = after_send json_dumps (get_devices http urljoin self w).
Proof.
  unfold call_tool_body; cbn [String.eqb Ascii.eqb Bool.eqb].
  unfold bind, after_send.
  destruct (get_devices _ _ _ _) as [[e|devices] w']; reflexivity.
Qed.

Lemma body_list_tv_devices self arguments w :
  call_tool_body http urljoin py_repr json_dumps self "list_tv_devices"
                 arguments w
  = after_send json_dumps (get_tv_devices http urljoin self w).
Proof.
  unfold call_tool_body; cbn [String.eqb Ascii.eqb Bool.eqb].
  unfold bind at 1. unfold after_send.
  destruct (get_tv_devices _ _ _ _) as [[e|devices] w']; reflexivity.
Qed.

Lemma body_get_device_status self arguments device_id w :
  dict_lookup arguments "device_id" = Some device_id ->
  call_tool_body http urljoin py_repr json_dumps self "get_device_status"
                 arguments w
  = after_send
      (fun status =>
         if py_truthy status
         then json_dumps status
         else "Could not get status for device " ++ py_str py_repr device_id)
      (get_device_status http urljoin py_repr self device_id w).
Proof.
  intros Hid. unfold call_tool_body; cbn [String.eqb Ascii.eqb Bool.eqb].
  unfold bind, lift, after_send. rewrite (getitem_found _ _ _ Hid).
  destruct (get_device_status _ _ _ _ _ _) as [[e|status] w']; [reflexivity|].
  destruct (py_truthy status); reflexivity.
Qed.

Lemma requests_get_tv_devices self w :
  requests (snd (get_tv_devices http urljoin self w))
  = requests (snd (get_devices http urljoin self w)).
Proof.
  unfold get_tv_devices, bind, lift.
  destruct (get_devices _ _ _ _) as [[e|devices] w']; reflexivity.
Qed.

(** The requests of a call whose body ends in [after_send]. *)
Lemma requests_after_send self name arguments w render r :
  call_tool_body http urljoin py_repr json_dumps self name arguments w
  = after_send render r ->
  requests (snd (handle_call_tool http urljoin py_repr json_dumps
                   (mkServer (Some self)) name arguments w))
  = requests (snd r).
Proof.
  intros Hbody. now rewrite handle_call_tool_requests, Hbody, after_send_requests.
Qed.

Lemma required_keys_present tool arguments key :
  (forall k, In k (required_keys (inputSchema tool)) ->
             dict_lookup arguments k <> None) ->
  In key (required_keys (inputSchema tool)) ->
  exists v, dict_lookup arguments key = Some v.
Proof.
  intros Hall Hkey. specialize (Hall key Hkey).
  destruct (dict_lookup arguments key) as [v|]; [now exists v|easy].
Qed.

(** X12. Every tool of the catalog, called with its required keys present,
    makes exactly one request: a GET without body for the four query tools,
    a POST with a body for the five command tools, with the client's headers
    either way. *)
Theorem catalog_call_makes_one_request self tool arguments w :
  In tool handle_list_tools ->
  (forall key, In key (required_keys (inputSchema tool)) ->
               dict_lookup arguments key <> None) ->
  exists r,
    requests (snd (handle_call_tool http urljoin py_repr json_dumps
                     (mkServer (Some self)) (name tool) arguments w))
    = (requests w ++ [r])%list
    /\ from_client urljoin self r
    /\ req_method r = if is_query_tool (name tool) then "GET" else "POST".
Proof.
  intros Htool Hargs.
  pose proof (fun key => required_keys_present tool arguments key Hargs)
    as Hpresent.
  clear Hargs. cbn in Htool.
  repeat (destruct Htool as [<-|Htool]); try contradiction; cbn [name];
    try (destruct (Hpresent "device_id") as [device_id Hid];
         [solve [cbn; auto]|]).
  - eexists. erewrite requests_after_send by apply body_list_devices.
    split; [apply requests_get_devices|].
    split; [apply from_client_get|reflexivity].
  - eexists. erewrite requests_after_send by apply body_list_tv_devices.
    rewrite requests_get_tv_devices.
    split; [apply requests_get_devices|].
    split; [apply from_client_get|reflexivity].
  - eexists.
    erewrite requests_after_send by (apply body_get_device_info; eassumption).
    split; [apply requests_get_device|].
    split; [apply from_client_get|reflexivity].
  - eexists.
    erewrite requests_after_send by (apply body_get_device_status; eassumption).
    split; [apply requests_get_device_status|].
    split; [apply from_client_get|reflexivity].
  - destruct (Hpresent "action") as [v Hv]; [cbn; auto|]. eexists.
    erewrite requests_after_send by (apply body_turn_tv_on_off; eassumption).
    split; [apply send_device_command_requests|].
    split; [apply from_client_post|reflexivity].
  - destruct (Hpresent "volume") as [v Hv]; [cbn; auto|]. eexists.
    erewrite requests_after_send by (apply body_change_tv_volume; eassumption).
    split; [apply send_device_command_requests|].
    split; [apply from_client_post|reflexivity].
  - destruct (Hpresent "mute") as [v Hv]; [cbn; auto|]. eexists.
    erewrite requests_after_send by (apply body_mute_tv; eassumption).
    split; [apply send_device_command_requests|].
    split; [apply from_client_post|reflexivity].
  - destruct (Hpresent "channel") as [v Hv]; [cbn; auto|]. eexists.
    erewrite requests_after_send by (apply body_change_tv_channel; eassumption).
    split; [apply send_device_command_requests|].
    split; [apply from_client_post|reflexivity].
  - destruct (Hpresent "input_source") as [v Hv]; [cbn; auto|]. eexists.
    erewrite requests_after_send by (apply body_change_tv_input; eassumption).
    split; [apply send_device_command_requests|].
    split; [apply from_client_post|reflexivity].
Qed.

(** X13. Every command tool of the catalog, called with its required keys
    present, posts to the commands endpoint of the device named by
    ["device_id"] a batch of exactly one command; that command addresses the
    component ["main"] and one of the four capabilities by which
    [get_tv_devices] recognises a TV. *)
Theorem command_batch_is_one_main_command self tool arguments w :
  In tool handle_list_tools ->
  is_query_tool (name tool) = false ->
  (forall key, In key (required_keys (inputSchema tool)) ->
               dict_lookup arguments key <> None) ->
  exists device_id cmd capability,
    dict_lookup arguments "device_id" = Some device_id
    /\ requests (snd (handle_call_tool http urljoin py_repr json_dumps
                        (mkServer (Some self)) (name tool) arguments w))
       = (requests w
          ++ [mkRequest "POST"
                (urljoin (base_url self)
                         ("/devices/" ++ py_str py_repr device_id ++ "/commands"))
                (headers self)
                (Some (JDict [("commands", JList [JDict cmd])]))])%list
    /\ dict_lookup cmd "component" = Some (JStr "main")
    /\ dict_lookup cmd "capability" = Some (JStr capability)
    /\ In capability tv_capabilities.
Proof.
  intros Htool Hcommand Hargs.
  pose proof (fun key => required_keys_present tool arguments key Hargs)
    as Hpresent.
  clear Hargs. cbn in Htool.
  repeat (destruct Htool as [<-|Htool]); try contradiction;
    try discriminate Hcommand; cbn [name];
    (destruct (Hpresent "device_id") as [device_id Hid]; [solve [cbn; auto]|]);
    exists device_id.
  - destruct (Hpresent "action") as [v Hv]; [cbn; auto|].
    eexists; exists "switch".
    erewrite requests_after_send by (apply body_turn_tv_on_off; eassumption).
    rewrite send_device_command_requests.
    repeat split; cbn; auto.
  - destruct (Hpresent "volume") as [v Hv]; [cbn; auto|].
    eexists; exists "audioVolume".
    erewrite requests_after_send by (apply body_change_tv_volume; eassumption).
    rewrite send_device_command_requests.
    repeat split; cbn; auto.
  - destruct (Hpresent "mute") as [v Hv]; [cbn; auto|].
    eexists; exists "audioVolume".
    erewrite requests_after_send by (apply body_mute_tv; eassumption).
    rewrite send_device_command_requests.
    repeat split; cbn; auto.
  - destruct (Hpresent "channel") as [v Hv]; [cbn; auto|].
    eexists; exists "tvChannel".
    erewrite requests_after_send by (apply body_change_tv_channel; eassumption).
    rewrite send_device_command_requests.
    repeat split; cbn; auto.
  - destruct (Hpresent "input_source") as [v Hv]; [cbn; auto|].
    eexists; exists "mediaInputSource".
    erewrite requests_after_send by (apply body_change_tv_input; eassumption).
    rewrite send_device_command_requests.
    repeat split; cbn; auto.
Qed.

(** X14. A [change_tv_channel] call runs [send_device_command] exactly once,
    with the single command [setTvChannel] on capability [tvChannel] whose
    argument list is the given channel, unchanged; the answer renders the
    result, or the error when the command failed. *)
Theorem change_tv_channel_command self device_id channel arguments w :
  dict_lookup arguments "device_id" = Some device_id ->
  dict_lookup arguments "channel" = Some channel ->
  let cmd := [("component", JStr "main");
              ("capability", JStr "tvChannel");
              ("command", JStr "setTvChannel");
              ("arguments", JList [channel])] in
  let call := handle_call_tool http urljoin py_repr json_dumps
                (mkServer (Some self)) "change_tv_channel" arguments w in
  call = rendered "change_tv_channel"
           (fun result => "Channel changed to " ++ py_str py_repr channel
                            ++ ". Result: " ++ json_dumps result)
           (send_device_command http urljoin py_repr self device_id
              (JList [JDict cmd]) w)
  /\ requests (snd call)
     = (requests w
        ++ [command_request urljoin py_repr self device_id
                            (JList [JDict cmd])])%list.
Proof.
  intros Hid Hchannel cmd call.
  pose proof (body_change_tv_channel http urljoin py_repr json_dumps
                self arguments _ _ w Hid Hchannel) as Hbody.
  split.
  - exact (handle_after_send _ _ _ _ _ _ _ _ _ _ Hbody).
  - unfold call. rewrite (requests_after_send _ _ _ _ _ _ Hbody).
    apply send_device_command_requests.
Qed.

(** X15. A [change_tv_input] call runs [send_device_command] exactly once,
    with the single command [setInputSource] on capability
    [mediaInputSource] whose argument list is the given input source,
    unchanged; the answer renders the result, or the error when the command
    failed. *)
Theorem change_tv_input_command self device_id input_source arguments w :
  dict_lookup arguments "device_id" = Some device_id ->
  dict_lookup arguments "input_source" = Some input_source ->
  let cmd := [("component", JStr "main");
              ("capability", JStr "mediaInputSource");
              ("command", JStr "setInputSource");
              ("arguments", JList [input_source])] in
  let call := handle_call_tool http urljoin py_repr json_dumps
                (mkServer (Some self)) "change_tv_input" arguments w in
  call = rendered "change_tv_input"
           (fun result => "Input changed to " ++ py_str py_repr input_source
                            ++ ". Result: " ++ json_dumps result)
           (send_device_command http urljoin py_repr self device_id
              (JList [JDict cmd]) w)
  /\ requests (snd call)
     = (requests w
        ++ [command_request urljoin py_repr self device_id
                            (JList [JDict cmd])])%list.
Proof.
  intros Hid Hinput cmd call.
  pose proof (body_change_tv_input http urljoin py_repr json_dumps
                self arguments _ _ w Hid Hinput) as Hbody.
  split.
  - exact (handle_after_send _ _ _ _ _ _ _ _ _ _ Hbody).
  - unfold call. rewrite (requests_after_send _ _ _ _ _ _ Hbody).
    apply send_device_command_requests.
Qed.

(** X16. What [get_device_status] answers: the status rendered as JSON when
    the fetch succeeds with a truthy value, and
    ["Could not get status for device <id>"] both when the fetch fails and
    when it succeeds with a falsy value (an empty object, [null]). *)
Theorem get_device_status_answer self arguments device_id w :
  dict_lookup arguments "device_id" = Some device_id ->
  fst (handle_call_tool http urljoin py_repr json_dumps (mkServer (Some self))
         "get_device_status" arguments w)
  = inr [text_content
           match http (requests w)
                      (request_of urljoin self "GET"
                         ("/devices/" ++ py_str py_repr device_id ++ "/status")
                         None) with
           | inr status =>
               if py_truthy status
               then json_dumps status
               else "Could not get status for device "
                      ++ py_str py_repr device_id
           | inl _ =>
               "Could not get status for device " ++ py_str py_repr device_id
           end].
Proof.
  intros Hid.
  erewrite handle_after_send by (apply body_get_device_status; eassumption).
  rewrite get_device_status_run; cbv zeta.
  destruct (http _ _); reflexivity.
Qed.

(** X17. [list_tv_devices] is [list_devices] followed by the classification:
    when [get_devices] returns [devices], [list_devices] renders them, and
    [list_tv_devices] renders the classified list if the classification goes
    through and answers the error item carrying its exception if it
    raises. *)
Theorem list_tv_devices_answer self arguments w devices :
  fst (get_devices http urljoin self w) = inr devices ->
  fst (handle_call_tool http urljoin py_repr json_dumps (mkServer (Some self))
         "list_devices" arguments w)
  = inr [text_content (json_dumps devices)]
  /\ fst (handle_call_tool http urljoin py_repr json_dumps
            (mkServer (Some self)) "list_tv_devices" arguments w)
     = inr [text_content
              match classify_tv_devices devices with
              | inr tv_devices => json_dumps tv_devices
              | inl e => "Error executing list_tv_devices: " ++ exn_str e
              end].
Proof.
  intros Hdevices. split.
  - erewrite handle_after_send by apply body_list_devices.
    destruct (get_devices _ _ _ _) as [[e|v] w']; cbn in *; congruence.
  - erewrite handle_after_send by apply body_list_tv_devices.
    unfold get_tv_devices, bind, lift.
    destruct (get_devices _ _ _ _) as [[e|v] w']; cbn in *; [discriminate|].
    injection Hdevices as ->.
    destruct (classify_tv_devices devices); reflexivity.
Qed.

End DispatcherProperties.

(** X18. A failed listing looks like an empty one: when the request for the
    devices fails, [list_devices] and [list_tv_devices] answer the rendering
    of the empty list, which is also their answer when the endpoint reports
    no device. *)
Theorem failed_listing_looks_empty
        http_failing http_empty urljoin py_repr json_dumps
        self tool_name arguments w e :
  http_failing (requests w) (request_of urljoin self "GET" "/devices" None)
  = inl e ->
  http_empty (requests w) (request_of urljoin self "GET" "/devices" None)
  = inr (JDict [("items", JList [])]) ->
  tool_name = "list_devices" \/ tool_name = "list_tv_devices" ->
  fst (handle_call_tool http_failing urljoin py_repr json_dumps
         (mkServer (Some self)) tool_name arguments w)
  = inr [text_content (json_dumps (JList []))]
  /\ fst (handle_call_tool http_empty urljoin py_repr json_dumps
            (mkServer (Some self)) tool_name arguments w)
     = inr [text_content (json_dumps (JList []))].
Proof.
  intros Hfail Hempty Hname.
  destruct Hname as [-> | ->]; split.
  - erewrite handle_after_send by apply body_list_devices.
    rewrite get_devices_run; cbv zeta. now rewrite Hfail.
  - erewrite handle_after_send by apply body_list_devices.
    rewrite get_devices_run; cbv zeta. now rewrite Hempty.
  - erewrite handle_after_send by apply body_list_tv_devices.
    unfold get_tv_devices, bind. rewrite get_devices_run; cbv zeta.
    now rewrite Hfail.
  - erewrite handle_after_send by apply body_list_tv_devices.
    unfold get_tv_devices, bind. rewrite get_devices_run; cbv zeta.
    now rewrite Hempty.
Qed.

(** * Further properties of the startup *)

(** X19. Without a token, unset or empty, [run] exits with status 1 after
    logging the missing variable, before any request; the process answers no
    call. *)
Theorem missing_token_is_fatal
        http urljoin py_repr json_dumps self access_token calls w :
  access_token = None \/ access_token = Some "" ->
  run http urljoin self access_token w
  = (SysExit 1,
     logged w [(ERROR,
                "SMARTTHINGS_ACCESS_TOKEN environment variable not set")])
  /\ fst (main http urljoin py_repr json_dumps access_token calls w) = Exited 1
  /\ requests (snd (main http urljoin py_repr json_dumps access_token calls w))
     = requests w.
Proof.
  intros [-> | ->]; repeat split.
Qed.

(** X20. With a token, [run] makes exactly one request, the GET for the
    devices carrying ["Bearer <token>"], whatever server it is run on. It
    then enters the protocol loop with the client built from the token,
    unless the value [get_devices] returned has no length (the body's
    ["items"] is a number, a boolean or [null]): only then does it exit with
    status 1. *)
Theorem run_probes_once http urljoin self token w :
  token <> "" ->
  let self_client := SmartThingsClient_init token in
  exists devices,
    fst (get_devices http urljoin self_client w) = inr devices
    /\ requests (snd (run http urljoin self (Some token) w))
       = (requests w
          ++ [mkRequest "GET"
                (urljoin "https://api.smartthings.com/v1" "/devices")
                [("Authorization", ("Bearer " ++ token)%string);
                 ("Content-Type", "application/json")]
                None])%list
    /\ fst (run http urljoin self (Some token) w)
       = match py_len devices with
         | inr _ => Serving (mkServer (Some self_client))
         | inl _ => SysExit 1
         end.
Proof.
  intros Htoken self_client.
  destruct (get_devices_returns http urljoin self_client w) as [devices Hdevices].
  exists devices. split; [assumption|].
  pose proof (requests_get_devices http urljoin self_client w) as Hrequests.
  unfold run. destruct token as [|c token]; [contradiction|].
  fold self_client. unfold try_except, bind, lift.
  destruct (get_devices http urljoin self_client w) as [[e|v] w'];
    cbn in Hdevices, Hrequests; [discriminate|].
  injection Hdevices as ->.
  destruct (py_len devices) as [e|n]; cbn; split; (assumption || reflexivity).
Qed.

(** * Further properties of the argument handling *)

Section ArgumentProperties.

Variable http : list Request -> Request -> E json.
Variable urljoin : string -> string -> string.
Variable py_repr : json -> string.
Variable json_dumps : json -> string.

(** X21. Only the required keys of a tool are read: two argument mappings
    that agree on them get the same answer and leave the same world, so
    additional arguments are ignored. *)
Theorem only_required_keys_are_read server tool arguments arguments' w :
  In tool handle_list_tools ->
  (forall key, In key (required_keys (inputSchema tool)) ->
               dict_lookup arguments key = dict_lookup arguments' key) ->
  handle_call_tool http urljoin py_repr json_dumps server (name tool)
                   arguments w
  = handle_call_tool http urljoin py_repr json_dumps server (name tool)
                     arguments' w.
Proof.
  intros Htool Hsame. destruct server as [[self|]]; [|reflexivity].
  cbn in Htool.
  repeat (destruct Htool as [<-|Htool]); try contradiction; cbn [name];
    unfold handle_call_tool, call_tool_body, py_getitem;
    cbn [client String.eqb Ascii.eqb Bool.eqb];
    try reflexivity;
    repeat (rewrite Hsame by (cbn; auto)); reflexivity.
Qed.

(** X22. A tool that asks for a device and is called without ["device_id"]
    answers ["Error executing <tool>: 'device_id'"] before any request,
    whatever else the arguments hold: the device is the first key read. *)
Theorem missing_device_id_is_named self tool arguments w :
  In tool handle_list_tools ->
  In "device_id" (required_keys (inputSchema tool)) ->
  dict_lookup arguments "device_id" = None ->
  handle_call_tool http urljoin py_repr json_dumps (mkServer (Some self))
                   (name tool) arguments w
  = (inr [text_content ("Error executing " ++ name tool ++ ": 'device_id'")],
     logged w [(ERROR, "Error in tool " ++ name tool ++ ": 'device_id'")]).
Proof.
  intros Htool Hkey Hmissing. cbn in Htool.
  repeat (destruct Htool as [<-|Htool]; [cbn in Hkey|]);
    try contradiction; try (exfalso; intuition discriminate);
    cbn [name];
    unfold handle_call_tool, call_tool_body, py_getitem, try_except, bind, lift;
    cbn [client String.eqb Ascii.eqb Bool.eqb];
    rewrite Hmissing; reflexivity.
Qed.

(** X23. [mute_tv] follows the truthiness of ["mute"], whatever JSON value it
    is: a truthy value (the string ["false"] as much as [true]) sends
    ["mute"], a falsy one ([0], [null], the empty string) sends
    ["unmute"]. *)
Theorem mute_tv_follows_truthiness self device_id mute arguments w :
  dict_lookup arguments "device_id" = Some device_id ->
  dict_lookup arguments "mute" = Some mute ->
  requests (snd (handle_call_tool http urljoin py_repr json_dumps
                   (mkServer (Some self)) "mute_tv" arguments w))
  = (requests w
     ++ [command_request urljoin py_repr self device_id
           (JList [JDict [("component", JStr "main");
                          ("capability", JStr "audioVolume");
                          ("command",
                           JStr (if py_truthy mute then "mute"
                                 else "unmute"))]])])%list.
Proof.
  intros Hid Hmute.
  rewrite handle_call_tool_requests.
  rewrite (body_mute_tv http urljoin py_repr json_dumps _ _ _ _ w Hid Hmute).
  rewrite after_send_requests. apply send_device_command_requests.
Qed.

(** X24. [turn_tv_on_off] checks no action: whatever value ["action"] holds
    is sent as the command verb on capability [switch], unchanged, in a
    command without arguments. The values ["on"] and ["off"] are only
    declared, as the [enum] of the input schema. *)
Theorem turn_tv_on_off_action_unchecked self device_id action arguments w :
  dict_lookup arguments "device_id" = Some device_id ->
  dict_lookup arguments "action" = Some action ->
  requests (snd (handle_call_tool http urljoin py_repr json_dumps
                   (mkServer (Some self)) "turn_tv_on_off" arguments w))
  = (requests w
     ++ [command_request urljoin py_repr self device_id
           (JList [JDict [("component", JStr "main");
                          ("capability", JStr "switch");
                          ("command", action)]])])%list
  /\ declared "turn_tv_on_off" "action" "enum"
     = Some (JList [JStr "on"; JStr "off"]).
Proof.
  intros Hid Haction. split; [|reflexivity].
  rewrite handle_call_tool_requests.
  rewrite (body_turn_tv_on_off http urljoin py_repr json_dumps
             _ _ _ _ w Hid Haction).
  rewrite after_send_requests. apply send_device_command_requests.
Qed.

(** X25. When the command request succeeds, each of the five command tools
    answers a confirmation followed by [". Result: "] and the rendering of
    the body the endpoint returned, and logs nothing. *)
Theorem command_success_renders_result self tool arguments body w :
  In tool handle_list_tools ->
  is_query_tool (name tool) = false ->
  (forall key, In key (required_keys (inputSchema tool)) ->
               dict_lookup arguments key <> None) ->
  (forall r, http (requests w) r = inr body) ->
  exists confirmation,
    fst (handle_call_tool http urljoin py_repr json_dumps
           (mkServer (Some self)) (name tool) arguments w)
    = inr [text_content (confirmation ++ ". Result: " ++ json_dumps body)]
    /\ log_lines (snd (handle_call_tool http urljoin py_repr json_dumps
                         (mkServer (Some self)) (name tool) arguments w))
       = log_lines w.
Proof.
  intros Htool Hcommand Hargs Hok.
  pose proof (fun key => required_keys_present tool arguments key Hargs)
    as Hpresent.
  clear Hargs. cbn in Htool.
  assert (Hsend : forall name render device_id commands,
             rendered name render
               (send_device_command http urljoin py_repr self
                  device_id commands w)
             = (inr [text_content (render body)],
                sent w (command_request urljoin py_repr self
                                        device_id commands))).
  { intros. rewrite send_device_command_run; cbv zeta. now rewrite Hok. }
  repeat (destruct Htool as [<-|Htool]); try contradiction;
    try discriminate Hcommand; cbn [name];
    (destruct (Hpresent "device_id") as [device_id Hid]; [solve [cbn; auto]|]).
  - destruct (Hpresent "action") as [v Hv]; [cbn; auto|].
    erewrite handle_after_send by (apply body_turn_tv_on_off; eassumption).
    rewrite Hsend. exists ("TV turned " ++ py_str py_repr v).
    split; reflexivity.
  - destruct (Hpresent "volume") as [v Hv]; [cbn; auto|].
    erewrite handle_after_send by (apply body_change_tv_volume; eassumption).
    rewrite Hsend. exists ("Volume set to " ++ py_str py_repr v).
    split; reflexivity.
  - destruct (Hpresent "mute") as [v Hv]; [cbn; auto|].
    erewrite handle_after_send by (apply body_mute_tv; eassumption).
    rewrite Hsend. exists ("TV " ++ if py_truthy v then "muted" else "unmuted").
    split; reflexivity.
  - destruct (Hpresent "channel") as [v Hv]; [cbn; auto|].
    erewrite handle_after_send by (apply body_change_tv_channel; eassumption).
    rewrite Hsend. exists ("Channel changed to " ++ py_str py_repr v).
    split; reflexivity.
  - destruct (Hpresent "input_source") as [v Hv]; [cbn; auto|].
    erewrite handle_after_send by (apply body_change_tv_input; eassumption).
    rewrite Hsend. exists ("Input changed to " ++ py_str py_repr v).
    split; reflexivity.
Qed.

End ArgumentProperties.

(** * The further properties at concrete inputs *)

Lemma one_unreadable_device_fails_all_witness :
  (exists e',
     classify_tv_devices (JList [JInt 5; sample_tv; sample_broken; sample_tv])
     = inl e')
  /\ classify_tv_devices
       (JList [sample_sensor; sample_tv; sample_broken; sample_tv])
     = inl (mkExn IndexError "list index out of range").
Proof.
  split.
  - exact (proj1 (one_unreadable_device_fails_all
                    [JInt 5; sample_tv] sample_broken [sample_tv]
                    (mkExn IndexError "list index out of range") eq_refl)).
  - apply (proj2 (one_unreadable_device_fails_all
                    [sample_sensor; sample_tv] sample_broken [sample_tv]
                    (mkExn IndexError "list index out of range") eq_refl)).
    constructor; [now exists false|].
    constructor; [now exists true|constructor].
Defined.

Lemma classify_tv_devices_idempotent_witness :
  classify_tv_devices (JList [sample_tv]) = inr (JList [sample_tv]).
Proof.
  apply (classify_tv_devices_idempotent [sample_sensor; sample_tv]).
  reflexivity.
Defined.

Lemma is_tv_device_first_component_witness :
  exists tv,
    is_tv_device sample_tv = inr tv
    /\ (tv = true <->
        exists cap id,
          In cap [[("id", JStr "switch")]; [("id", JStr "audioVolume")]]
          /\ In id tv_capabilities
          /\ dict_lookup cap "id" = Some (JStr id)).
Proof.
  exact (is_tv_device_first_component
           [("deviceId", JStr "tv-1");
            ("components",
             JList [JDict [("id", JStr "main");
                           ("capabilities",
                            JList [JDict [("id", JStr "switch")];
                                   JDict [("id", JStr "audioVolume")]])]])]
           [("id", JStr "main");
            ("capabilities",
             JList [JDict [("id", JStr "switch")];
                    JDict [("id", JStr "audioVolume")]])]
           []
           [[("id", JStr "switch")]; [("id", JStr "audioVolume")]]
           eq_refl eq_refl).
Defined.

Lemma is_tv_device_defaults_witness :
  is_tv_device (JDict [("deviceId", JStr "bare-1")]) = inr false
  /\ is_tv_device
       (JDict [("components", JList [JDict [("id", JStr "main")]])])
     = inr false.
Proof.
  split.
  - exact (proj1 (is_tv_device_defaults [("deviceId", JStr "bare-1")]) eq_refl).
  - exact (proj2 (is_tv_device_defaults
                    [("components", JList [JDict [("id", JStr "main")]])])
                 [("id", JStr "main")] [] eq_refl eq_refl).
Defined.

Lemma unknown_tool_is_reported_witness :
  handle_call_tool http_down urljoin_absolute sample_text sample_text
                   sample_server "reboot_tv" [] initial_world
  = (inr [text_content "Unknown tool: reboot_tv"], initial_world).
Proof.
  apply (unknown_tool_is_reported
           http_down urljoin_absolute sample_text sample_text
           sample_client "reboot_tv" [] initial_world).
  cbn. intuition discriminate.
Defined.

Lemma catalog_call_makes_one_request_witness :
  exists r,
    requests (snd (handle_call_tool http_down urljoin_absolute
                     sample_text sample_text sample_server
                     "get_device_status" [("device_id", JStr "X")]
                     initial_world))
    = [r]
    /\ from_client urljoin_absolute sample_client r
    /\ req_method r = "GET".
Proof.
  apply (catalog_call_makes_one_request
           http_down urljoin_absolute sample_text sample_text sample_client
           (tool_named "get_device_status") [("device_id", JStr "X")]
           initial_world).
  - cbn. tauto.
  - intros key [<-|[]]. discriminate.
Defined.

Lemma command_batch_is_one_main_command_witness :
  exists device_id cmd capability,
    dict_lookup [("device_id", JStr "X"); ("input_source", JStr "HDMI1")]
                "device_id" = Some device_id
    /\ requests (snd (handle_call_tool http_down urljoin_absolute
                        sample_text sample_text sample_server
                        "change_tv_input"
                        [("device_id", JStr "X");
                         ("input_source", JStr "HDMI1")]
                        initial_world))
       = [mkRequest "POST"
            (urljoin_absolute (base_url sample_client)
               ("/devices/" ++ py_str sample_text device_id ++ "/commands"))
            (headers sample_client)
            (Some (JDict [("commands", JList [JDict cmd])]))]
    /\ dict_lookup cmd "component" = Some (JStr "main")
    /\ dict_lookup cmd "capability" = Some (JStr capability)
    /\ In capability tv_capabilities.
Proof.
  apply (command_batch_is_one_main_command
           http_down urljoin_absolute sample_text sample_text sample_client
           (tool_named "change_tv_input")
           [("device_id", JStr "X"); ("input_source", JStr "HDMI1")]
           initial_world).
  - cbn. tauto.
  - reflexivity.
  - intros key [<-|[<-|[]]]; discriminate.
Defined.

Lemma change_tv_channel_command_witness :
  let arguments := [("device_id", JStr "X"); ("channel", JStr "7")] in
  requests (snd (handle_call_tool (http_always (JDict [])) urljoin_absolute
                   sample_text sample_text sample_server
                   "change_tv_channel" arguments initial_world))
  = [mkRequest "POST" "https://api.smartthings.com/devices/X/commands"
       (headers sample_client)
       (Some (JDict [("commands",
                      JList [JDict [("component", JStr "main");
                                    ("capability", JStr "tvChannel");
                                    ("command", JStr "setTvChannel");
                                    ("arguments", JList [JStr "7"])]])]))].
Proof.
  intros arguments.
  exact (proj2 (change_tv_channel_command
                  (http_always (JDict [])) urljoin_absolute
                  sample_text sample_text sample_client
                  (JStr "X") (JStr "7") arguments initial_world
                  eq_refl eq_refl)).
Defined.

Lemma change_tv_input_command_witness :
  let arguments := [("device_id", JStr "X"); ("input_source", JStr "HDMI1")] in
  requests (snd (handle_call_tool (http_always (JDict [])) urljoin_absolute
                   sample_text sample_text sample_server
                   "change_tv_input" arguments initial_world))
  = [mkRequest "POST" "https://api.smartthings.com/devices/X/commands"
       (headers sample_client)
       (Some (JDict [("commands",
                      JList [JDict [("component", JStr "main");
                                    ("capability", JStr "mediaInputSource");
                                    ("command", JStr "setInputSource");
                                    ("arguments", JList [JStr "HDMI1"])]])]))].
Proof.
  intros arguments.
  exact (proj2 (change_tv_input_command
                  (http_always (JDict [])) urljoin_absolute
                  sample_text sample_text sample_client
                  (JStr "X") (JStr "HDMI1") arguments initial_world
                  eq_refl eq_refl)).
Defined.

Lemma get_device_status_answer_witness :
  fst (handle_call_tool http_down urljoin_absolute sample_text sample_text
         sample_server "get_device_status" [("device_id", JStr "X")]
         initial_world)
  = inr [text_content "Could not get status for device X"].
Proof.
  exact (get_device_status_answer
           http_down urljoin_absolute sample_text sample_text sample_client
           [("device_id", JStr "X")] (JStr "X") initial_world eq_refl).
Defined.

Lemma list_tv_devices_answer_witness :
  let http := http_always (JDict [("items", JList [sample_sensor; sample_tv])]) in
  fst (handle_call_tool http urljoin_absolute sample_text sample_text
         sample_server "list_devices" [] initial_world)
  = inr [text_content (sample_text (JList [sample_sensor; sample_tv]))]
  /\ fst (handle_call_tool http urljoin_absolute sample_text sample_text
            sample_server "list_tv_devices" [] initial_world)
     = inr [text_content (sample_text (JList [sample_tv]))].
Proof.
  intros http.
  exact (list_tv_devices_answer
           http urljoin_absolute sample_text sample_text sample_client
           [] initial_world (JList [sample_sensor; sample_tv]) eq_refl).
Defined.

Lemma failed_listing_looks_empty_witness :
  fst (handle_call_tool http_down urljoin_absolute sample_text sample_text
         sample_server "list_tv_devices" [] initial_world)
  = inr [text_content "[]"]
  /\ fst (handle_call_tool (http_always (JDict [("items", JList [])]))
            urljoin_absolute sample_text sample_text
            sample_server "list_tv_devices" [] initial_world)
     = inr [text_content "[]"].
Proof.
  exact (failed_listing_looks_empty
           http_down (http_always (JDict [("items", JList [])]))
           urljoin_absolute sample_text sample_text sample_client
           "list_tv_devices" [] initial_world
           (mkExn ClientError "503, message='Service Unavailable'")
           eq_refl eq_refl (or_intror eq_refl)).
Defined.

Lemma missing_token_is_fatal_witness :
  fst (main (http_always (JDict [])) urljoin_absolute sample_text sample_text
            None [("list_devices", [])] initial_world)
  = Exited 1.
Proof.
  exact (proj1 (proj2 (missing_token_is_fatal
                         (http_always (JDict [])) urljoin_absolute
                         sample_text sample_text SmartThingsMCPServer_init
                         None [("list_devices", [])] initial_world
                         (or_introl eq_refl)))).
Defined.

Lemma run_probes_once_witness :
  exists devices,
    fst (get_devices (http_always (JDict [("items", JInt 5)])) urljoin_absolute
                     sample_client initial_world) = inr devices
    /\ requests (snd (run (http_always (JDict [("items", JInt 5)]))
                         urljoin_absolute SmartThingsMCPServer_init
                         (Some "token") initial_world))
       = [mkRequest "GET" "https://api.smartthings.com/devices"
            [("Authorization", "Bearer token");
             ("Content-Type", "application/json")] None]
    /\ fst (run (http_always (JDict [("items", JInt 5)]))
                urljoin_absolute SmartThingsMCPServer_init
                (Some "token") initial_world)
       = match py_len devices with
         | inr _ => Serving sample_server
         | inl _ => SysExit 1
         end.
Proof.
  apply (run_probes_once (http_always (JDict [("items", JInt 5)]))
                         urljoin_absolute SmartThingsMCPServer_init
                         "token" initial_world).
  discriminate.
Defined.

Lemma only_required_keys_are_read_witness :
  handle_call_tool http_down urljoin_absolute sample_text sample_text
                   sample_server "get_device_info"
                   [("device_id", JStr "X")] initial_world
  = handle_call_tool http_down urljoin_absolute sample_text sample_text
                     sample_server "get_device_info"
                     [("verbose", JBool true); ("device_id", JStr "X")]
                     initial_world.
Proof.
  apply (only_required_keys_are_read
           http_down urljoin_absolute sample_text sample_text sample_server
           (tool_named "get_device_info")).
  - cbn. tauto.
  - intros key [<-|[]]. reflexivity.
Defined.

Lemma missing_device_id_is_named_witness :
  fst (handle_call_tool http_down urljoin_absolute sample_text sample_text
         sample_server "mute_tv" [("mute", JBool true)] initial_world)
  = inr [text_content "Error executing mute_tv: 'device_id'"].
Proof.
  exact (f_equal fst
           (missing_device_id_is_named
              http_down urljoin_absolute sample_text sample_text sample_client
              (tool_named "mute_tv") [("mute", JBool true)] initial_world
              (or_intror (or_intror (or_intror (or_intror (or_intror
                 (or_intror (or_introl eq_refl)))))))
              (or_introl eq_refl) eq_refl)).
Defined.

Lemma mute_tv_follows_truthiness_witness :
  let arguments := [("device_id", JStr "X"); ("mute", JStr "false")] in
  requests (snd (handle_call_tool (http_always (JDict [])) urljoin_absolute
                   sample_text sample_text sample_server
                   "mute_tv" arguments initial_world))
  = [mkRequest "POST" "https://api.smartthings.com/devices/X/commands"
       (headers sample_client)
       (Some (JDict [("commands",
                      JList [JDict [("component", JStr "main");
                                    ("capability", JStr "audioVolume");
                                    ("command", JStr "mute")]])]))].
Proof.
  intros arguments.
  exact (mute_tv_follows_truthiness
           (http_always (JDict [])) urljoin_absolute
           sample_text sample_text sample_client
           (JStr "X") (JStr "false") arguments initial_world
           eq_refl eq_refl).
Defined.

Lemma turn_tv_on_off_action_unchecked_witness :
  let arguments := [("device_id", JStr "X"); ("action", JStr "toggle")] in
  requests (snd (handle_call_tool (http_always (JDict [])) urljoin_absolute
                   sample_text sample_text sample_server
                   "turn_tv_on_off" arguments initial_world))
  = [mkRequest "POST" "https://api.smartthings.com/devices/X/commands"
       (headers sample_client)
       (Some (JDict [("commands",
                      JList [JDict [("component", JStr "main");
                                    ("capability", JStr "switch");
                                    ("command", JStr "toggle")]])]))].
Proof.
  intros arguments.
  exact (proj1 (turn_tv_on_off_action_unchecked
                  (http_always (JDict [])) urljoin_absolute
                  sample_text sample_text sample_client
                  (JStr "X") (JStr "toggle") arguments initial_world
                  eq_refl eq_refl)).
Defined.

Lemma command_success_renders_result_witness :
  exists confirmation,
    fst (handle_call_tool (http_always (JDict [])) urljoin_absolute
           sample_text sample_text sample_server "change_tv_volume"
           [("device_id", JStr "X"); ("volume", JInt 30)] initial_world)
    = inr [text_content (confirmation ++ ". Result: " ++ "{}")]
    /\ log_lines (snd (handle_call_tool (http_always (JDict []))
                         urljoin_absolute sample_text sample_text
                         sample_server "change_tv_volume"
                         [("device_id", JStr "X"); ("volume", JInt 30)]
                         initial_world))
       = [].
Proof.
  apply (command_success_renders_result
           (http_always (JDict [])) urljoin_absolute sample_text sample_text
           sample_client (tool_named "change_tv_volume")
           [("device_id", JStr "X"); ("volume", JInt 30)] (JDict [])
           initial_world).
  - cbn. tauto.
  - reflexivity.
  - intros key [<-|[<-|[]]]; discriminate.
  - reflexivity.
Defined.
